(** * Authentication and session lifecycle of the movie application

    A shallow embedding of the session middleware
    (frontend/src/lib/supabase/middleware.ts), the auth service
    (frontend/src/lib/auth.ts), the password reset service and the two
    password forms, followed by the properties proved about them.

    Conventions of the embedding.
    - A JavaScript string is a [string]: a sequence of one-byte code units.
      URL paths are ASCII by construction (the URL parser percent-encodes
      everything else).  [toLowerCase] is the ASCII case mapping.
    - A nullable value [T | null | undefined] is an [option T]; an object is
      truthy when it is there, a string when it is not empty.
    - [await]ed provider calls are explicit: the middleware takes the resolved
      value of the call, the client-side code threads a provider state and an
      event log through a small state monad.
    - [console.log] and [console.error] calls are logged with their first
      argument, which is a literal everywhere; the other arguments are not
      modelled. *)

From Stdlib Require Import String Ascii List Bool Arith Lia.
From stdpp Require Import base option gmap strings list.


(** ** JavaScript string primitives *)

Module Js.

(** [s.startsWith(searchString)] *)
Definition startsWith (s searchString : string) : bool :=
  String.prefix searchString s.

(** [s.includes(searchString)]: some suffix of [s] starts with it. *)
Fixpoint includes (s searchString : string) : bool :=
  startsWith s searchString ||
  match s with
  | EmptyString => false
  | String _ rest => includes rest searchString
  end.

(** [s.substring(1)] *)
Definition substring1 (s : string) : string :=
  match s with
  | EmptyString => EmptyString
  | String _ rest => rest
  end.

Definition inRange (lo hi c : ascii) : bool :=
  Nat.leb (nat_of_ascii lo) (nat_of_ascii c) &&
  Nat.leb (nat_of_ascii c) (nat_of_ascii hi).

Definition lowerChar (c : ascii) : ascii :=
  if inRange "A"%char "Z"%char c then ascii_of_nat (nat_of_ascii c + 32) else c.

(** [s.toLowerCase()] *)
Fixpoint toLowerCase (s : string) : string :=
  match s with
  | EmptyString => EmptyString
  | String c rest => String (lowerChar c) (toLowerCase rest)
  end.

(** Truthiness of a nullable object: [!!o]. *)
Definition isSome {A : Type} (o : option A) : bool :=
  match o with
  | Some _ => true
  | None => false
  end.

(** Truthiness of a string: [!!s]. *)
Definition truthy (s : string) : bool :=
  match s with
  | EmptyString => false
  | String _ _ => true
  end.

(** [a || b] on nullable strings: the first truthy operand, else the last. *)
Definition or (a b : option string) : option string :=
  match a with
  | Some s => if truthy s then a else b
  | None => b
  end.

(** [a || undefined] *)
Definition orUndefined (a : option string) : option string :=
  match a with
  | Some s => if truthy s then a else None
  | None => None
  end.

(** Membership of a character in a bracket expression listing [chars]. *)
Fixpoint inString (chars : string) (c : ascii) : bool :=
  match chars with
  | EmptyString => false
  | String d rest => Ascii.eqb c d || inString rest c
  end.

(** [re.test(s)] for a regular expression that is one character class,
    written either [/[...]/] or with the look-ahead [/(?=.*[...])/]: the
    expression is not anchored, so the look-ahead form succeeds at the
    position of the first character of the class. *)
Fixpoint testClass (cls : ascii -> bool) (s : string) : bool :=
  match s with
  | EmptyString => false
  | String c rest => cls c || testClass cls rest
  end.

End Js.

(** ** Session middleware: [updateSession] *)

Module Middleware.

(** The provider's user and error objects, as far as the middleware looks at
    them: it only tests the user for presence and never reads the error. *)
Record User := { user_id : string }.

Record AuthError := { message : string }.

(** A cookie to set; its options are not modelled. *)
Record Cookie := { name : string; value : string }.

(** [new URL(path, request.url)] keeps the origin of the request and
    replaces path and query; [searchParams] is the ordered list of pairs. *)
Record URL := {
  origin : string;
  pathname : string;
  searchParams : list (string * string)
}.

(** [request.url] and [request.nextUrl] are one [URL] here: the application
    configures neither a base path nor locales. *)
Record NextRequest := {
  url : URL;
  cookies : list Cookie
}.

(** The resolved value of [await supabase.auth.getUser()], together with the
    batches of cookies the client handed to [setAll] while refreshing. *)
Record GetUserResponse := {
  data_user : option User;
  error : option AuthError;
  setAllCalls : list (list Cookie)
}.

Inductive NextResponse :=
| Next (responseCookies : list Cookie)
| Redirect (location : URL).

Definition newURL (path : string) (base : URL) : URL :=
  {| origin := origin base; pathname := path; searchParams := [] |}.

(** [url.searchParams.set(name, value)]: overwrite the first pair called
    [name] and drop the others, or append the pair. *)
Fixpoint dropName (n : string) (ps : list (string * string)) :=
  match ps with
  | [] => []
  | (k, v) :: rest =>
      if String.eqb k n then dropName n rest else (k, v) :: dropName n rest
  end.

Fixpoint setParam (n v : string) (ps : list (string * string)) :=
  match ps with
  | [] => [(n, v)]
  | (k, w) :: rest =>
      if String.eqb k n then (n, v) :: dropName n rest
      else (k, w) :: setParam n v rest
  end.

Definition searchParams_set (u : URL) (n v : string) : URL :=
  {| origin := origin u; pathname := pathname u;
     searchParams := setParam n v (searchParams u) |}.

Definition protectedRoutes : list string :=
  ["/dashboard"; "/profile"; "/favorites"; "/watchlist";
   "/reviews/create"; "/movies/rate"].

Definition authRoutes : list string :=
  ["/auth/login"; "/auth/register"; "/auth/forgot-password";
   "/auth/reset-password"].

Definition authCallbackRoutes : list string :=
  ["/auth/callback"; "/auth/auth-code-error"].

Definition isProtectedRoute (path : string) : bool :=
  existsb (fun route => Js.startsWith path route) protectedRoutes.

Definition isAuthRoute (path : string) : bool :=
  existsb (fun route => String.eqb path route) authRoutes.

Definition isAuthCallbackRoute (path : string) : bool :=
  existsb (fun route => Js.startsWith path route) authCallbackRoutes.

(** [response] as it stands after the provider call: every [setAll] call
    rebuilds it, so it carries the cookies of the last batch. *)
Definition passThrough (r : GetUserResponse) : NextResponse :=
  Next (List.last (setAllCalls r) []).

(** [r] is what [await supabase.auth.getUser()] resolved to; the function has
    no handler of its own for a call that throws. *)
Definition updateSession (request : NextRequest) (r : GetUserResponse)
  : NextResponse :=
  let response := passThrough r in
  let user := data_user r in
  let path := pathname (url request) in
  if isAuthCallbackRoute path then response
  else if Js.isSome user && isAuthRoute path then
    Redirect (newURL "/dashboard" (url request))
  else if negb (Js.isSome user) && isProtectedRoute path then
    let redirectUrl := newURL "/auth/login" (url request) in
    Redirect (searchParams_set redirectUrl "redirectTo" path)
  else response.

End Middleware.

(** ** Shared types (frontend/src/types/auth.ts) *)

Module Types.

Record AuthUser := {
  id : string;
  email : option string
}.

Record AuthError := {
  message : string;
  status : option nat
}.

(** The object literal [{ message: m }]. *)
Definition errorOf (m : string) : AuthError :=
  {| message := m; status := None |}.

End Types.

(** ** The identity provider client, as the code sees it *)

Module Supabase.

(** What an [await] can produce: a resolved value or a thrown one; a thrown
    value is an [Error] object with a message, or anything else. *)
Inductive Thrown :=
| ErrorObject (message : string)
| OtherValue.

Inductive Outcome (A : Type) :=
| Returned (a : A)
| Threw (e : Thrown).
Arguments Returned {A} a.
Arguments Threw {A} e.

(** The [{ data, error }] object every client call resolves to. *)
Record Response (D : Type) := {
  data : option D;
  error : option Types.AuthError
}.
Arguments data {D} _.
Arguments error {D} _.

Record UserData := { user : option Types.AuthUser }.

(** The argument of [updateUser]; [nonce] is an optional property. *)
Record UpdateData := {
  password : string;
  nonce : option string
}.

(** [supabase.auth], restricted to the calls used here.  The provider is
    stateful and unknown: each call maps a provider state to an outcome and
    a new provider state. *)
Record AuthClient (P : Type) := {
  updateUser : UpdateData -> P -> Outcome (Response UserData) * P;
  reauthenticate : P -> Outcome (Response unit) * P;
  resetPasswordForEmail :
    string -> string -> P -> Outcome (Response unit) * P
}.
Arguments updateUser {P} _ _ _.
Arguments reauthenticate {P} _ _.
Arguments resetPasswordForEmail {P} _ _ _ _.

End Supabase.

(** ** Effects of the client-side code

    A computation runs against an environment holding the provider state, the
    pending state of the component that runs it, and the chronological log of
    what it did to the outside: provider calls, toasts, console lines (the
    literal first argument only) and the [onSuccess] callback. *)

Module Eff.

Inductive Event :=
| CallUpdateUser (d : Supabase.UpdateData)
| CallReauthenticate
| CallResetPasswordForEmail (email redirectTo : string)
| ToastError (msg : string)
| ToastSuccess (msg : string)
| ConsoleLog (label : string)
| ConsoleError (label : string)
| OnSuccess.

Record Env (P C : Type) := {
  provider : P;
  component : C;
  log : list Event
}.
Arguments provider {P C} _.
Arguments component {P C} _.
Arguments log {P C} _.

Definition M (P C A : Type) : Type := Env P C -> A * Env P C.

Definition ret {P C A} (a : A) : M P C A := fun env => (a, env).

Definition bind {P C A B} (m : M P C A) (k : A -> M P C B) : M P C B :=
  fun env => let (a, env') := m env in k a env'.

(** Record an event at the end of the log. *)
Definition emit {P C} (e : Event) : M P C unit :=
  fun env =>
    (tt, {| provider := provider env; component := component env;
            log := log env ++ [e] |}).

(** Perform a provider call: log it, then step the provider. *)
Definition call {P C A} (e : Event) (f : P -> A * P) : M P C A :=
  fun env =>
    let (a, p') := f (provider env) in
    (a, {| provider := p'; component := component env;
           log := log env ++ [e] |}).

(** A React state setter: replace the pending component state. *)
Definition setState {P C} (f : C -> C) : M P C unit :=
  fun env =>
    (tt, {| provider := provider env; component := f (component env);
            log := log env |}).

Definition isReauthCall (e : Event) : bool :=
  match e with
  | CallReauthenticate => true
  | _ => false
  end.

(** How many nonce dispatches a log records. *)
Definition reauthCalls (l : list Event) : nat :=
  length (List.filter isReauthCall l).

End Eff.

Declare Scope eff_scope.
Delimit Scope eff_scope with eff.
Notation "'let*' x ':=' m 'in' k" := (Eff.bind m (fun x => k))
  (at level 10, x name, m at level 100, k at level 200) : eff_scope.
Notation "m ';;' k" := (Eff.bind m (fun _ => k))
  (at level 100, k at level 200, right associativity) : eff_scope.

Local Open Scope eff_scope.

(** ** Auth service (frontend/src/lib/auth.ts) *)

Module AuthService.

(** Results of shape [{ error }]. *)
Module ErrorResult.
Record t := { error : option Types.AuthError }.
End ErrorResult.

(** The [user] of an [updatePassword] result: the provider's user object or
    the literal [{ updated: true }]. *)
Inductive UserOrFlag :=
| RealUser (u : Types.AuthUser)
| UpdatedFlag.

(** Results of shape [{ user, error }]. *)
Module UserResult.
Record t := {
  user : option UserOrFlag;
  error : option Types.AuthError
}.
End UserResult.

Section WithClient.
Context {P C : Type} (supabase : Supabase.AuthClient P).

(** [origin] is [window.location.origin]. *)
Definition sendPasswordResetEmail (origin email : string)
  : Eff.M P C ErrorResult.t :=
  let redirectTo := origin +:+ "/auth/reset-password" in
  let* o := Eff.call (Eff.CallResetPasswordForEmail email redirectTo)
              (Supabase.resetPasswordForEmail supabase email redirectTo) in
  match o with
  | Supabase.Returned r =>
      match Supabase.error r with
      | Some e =>
          Eff.ret {| ErrorResult.error :=
                       Some (Types.errorOf (Types.message e)) |}
      | None => Eff.ret {| ErrorResult.error := None |}
      end
  | Supabase.Threw _ =>
      Eff.ret {| ErrorResult.error :=
                   Some (Types.errorOf "Failed to send password reset email") |}
  end.

Definition updatePassword (newPassword : string) (nonce : option string)
  : Eff.M P C UserResult.t :=
  Eff.emit (Eff.ConsoleLog "Auth service: updatePassword called with nonce:");;
  let updateData :=
    {| Supabase.password := newPassword;
       Supabase.nonce := Js.orUndefined nonce |} in
  (if Js.isSome (Js.orUndefined nonce)
   then Eff.emit (Eff.ConsoleLog "Auth service: Including nonce in update")
   else Eff.ret tt);;
  Eff.emit (Eff.ConsoleLog "Auth service: Calling supabase.auth.updateUser");;
  let* o := Eff.call (Eff.CallUpdateUser updateData)
              (Supabase.updateUser supabase updateData) in
  match o with
  | Supabase.Returned r =>
      Eff.emit (Eff.ConsoleLog "Auth service: updateUser response:");;
      match Supabase.error r with
      | Some e =>
          Eff.emit (Eff.ConsoleLog "Auth service: Update error:");;
          Eff.ret {| UserResult.user := None;
                     UserResult.error :=
                       Some (Types.errorOf (Types.message e)) |}
      | None =>
          Eff.emit (Eff.ConsoleLog
            "Auth service: Update successful - returning success indicator");;
          let u :=
            match Supabase.data r with
            | Some d =>
                match Supabase.user d with
                | Some u => RealUser u
                | None => UpdatedFlag
                end
            | None => UpdatedFlag
            end in
          Eff.ret {| UserResult.user := Some u;
                     UserResult.error := None |}
      end
  | Supabase.Threw e =>
      Eff.emit (Eff.ConsoleError
        "Auth service: Unexpected error in updatePassword:");;
      let errorMessage :=
        match e with
        | Supabase.ErrorObject m => m
        | Supabase.OtherValue => "Failed to update password"
        end in
      Eff.ret {| UserResult.user := None;
                 UserResult.error := Some (Types.errorOf errorMessage) |}
  end.

Definition reauthenticate : Eff.M P C ErrorResult.t :=
  Eff.emit (Eff.ConsoleLog "Auth service: reauthenticate called");;
  let* o := Eff.call Eff.CallReauthenticate
              (Supabase.reauthenticate supabase) in
  match o with
  | Supabase.Returned r =>
      match Supabase.error r with
      | Some e =>
          Eff.emit (Eff.ConsoleLog "Auth service: reauthenticate error:");;
          Eff.ret {| ErrorResult.error :=
                       Some (Types.errorOf (Types.message e)) |}
      | None =>
          Eff.emit (Eff.ConsoleLog "Auth service: reauthenticate successful");;
          Eff.ret {| ErrorResult.error := None |}
      end
  | Supabase.Threw _ =>
      Eff.emit (Eff.ConsoleError
        "Auth service: Unexpected error in reauthenticate:");;
      Eff.ret {| ErrorResult.error :=
                   Some (Types.errorOf "Failed to send reauthentication nonce") |}
  end.

End WithClient.

End AuthService.

(** ** Dashboard password form
       (frontend/src/components/auth/DashboardPasswordReset.tsx) *)

Module DashboardPasswordReset.

Record FormData := {
  password : string;
  confirmPassword : string;
  nonce : string
}.

(** The [useState] cells of the component. *)
Record State := {
  formData : FormData;
  errors : gmap string string;
  isLoading : bool;
  showPassword : bool;
  showConfirmPassword : bool;
  isSuccess : bool;
  needsReauth : bool;
  reauthSent : bool
}.

Definition withErrors (v : gmap string string) (s : State) : State :=
  {| formData := formData s; errors := v; isLoading := isLoading s;
     showPassword := showPassword s;
     showConfirmPassword := showConfirmPassword s;
     isSuccess := isSuccess s; needsReauth := needsReauth s;
     reauthSent := reauthSent s |}.

Definition withIsLoading (v : bool) (s : State) : State :=
  {| formData := formData s; errors := errors s; isLoading := v;
     showPassword := showPassword s;
     showConfirmPassword := showConfirmPassword s;
     isSuccess := isSuccess s; needsReauth := needsReauth s;
     reauthSent := reauthSent s |}.

Definition withIsSuccess (v : bool) (s : State) : State :=
  {| formData := formData s; errors := errors s; isLoading := isLoading s;
     showPassword := showPassword s;
     showConfirmPassword := showConfirmPassword s;
     isSuccess := v; needsReauth := needsReauth s;
     reauthSent := reauthSent s |}.

Definition withNeedsReauth (v : bool) (s : State) : State :=
  {| formData := formData s; errors := errors s; isLoading := isLoading s;
     showPassword := showPassword s;
     showConfirmPassword := showConfirmPassword s;
     isSuccess := isSuccess s; needsReauth := v;
     reauthSent := reauthSent s |}.

Definition withReauthSent (v : bool) (s : State) : State :=
  {| formData := formData s; errors := errors s; isLoading := isLoading s;
     showPassword := showPassword s;
     showConfirmPassword := showConfirmPassword s;
     isSuccess := isSuccess s; needsReauth := needsReauth s;
     reauthSent := v |}.

(** The bracket expression of the last rule of [validatePassword]. *)
Definition specialChars : string :=
  "!@#$%^&*()_+-=[]{};':" +:+ String "034"%char "\|,.<>/?".

Definition validatePassword (password : string) : string :=
  if negb (Js.truthy password) then "Password is required"
  else if Nat.ltb (String.length password) 8
    then "Password must be at least 8 characters"
  else if Nat.ltb 128 (String.length password)
    then "Password is too long"
  else if negb (Js.testClass (Js.inRange "a" "z") password)
    then "Password must contain at least one lowercase letter"
  else if negb (Js.testClass (Js.inRange "A" "Z") password)
    then "Password must contain at least one uppercase letter"
  else if negb (Js.testClass (Js.inRange "0" "9") password)
    then "Password must contain at least one number"
  else if negb (Js.testClass (Js.inString specialChars) password)
    then "Password must contain at least one special character"
  else EmptyString.

Definition validateConfirmPassword (password confirmPassword : string)
  : string :=
  if negb (Js.truthy confirmPassword) then "Please confirm your password"
  else if negb (String.eqb password confirmPassword)
    then "Passwords do not match"
  else EmptyString.

Definition sameAsCurrentMessage : string :=
  "New password must be different from your current password. Please choose a different password.".

Definition invalidNonceMessage : string :=
  "Invalid or expired verification code. Please try again.".

(** First test of the error branch: the provider says the new password is
    the current one. *)
Definition isSamePasswordError (errorMessage : string) : bool :=
  Js.includes errorMessage "new password should be different" ||
  Js.includes errorMessage "same as" ||
  Js.includes errorMessage "already".

(** Second test: the provider asks for reauthentication. *)
Definition isReauthError (errorMessage : string) : bool :=
  Js.includes errorMessage "reauthentication" ||
  Js.includes errorMessage "nonce" ||
  Js.includes errorMessage "verification" ||
  Js.includes errorMessage "recent sign".

Section WithClient.
Context {P : Type} (supabase : Supabase.AuthClient P).

(** [onSuccess] is an optional prop; [hasOnSuccess] says it was given. *)
Variable hasOnSuccess : bool.

Local Abbreviation M := (Eff.M P State).

Definition setErrors (v : gmap string string) : M unit :=
  Eff.setState (withErrors v).
Definition setIsLoading (v : bool) : M unit :=
  Eff.setState (withIsLoading v).
Definition setIsSuccess (v : bool) : M unit :=
  Eff.setState (withIsSuccess v).
Definition setNeedsReauth (v : bool) : M unit :=
  Eff.setState (withNeedsReauth v).
Definition setReauthSent (v : bool) : M unit :=
  Eff.setState (withReauthSent v).

(** [st] is the state of the render whose closure runs. *)
Definition validateForm (st : State) : M bool :=
  let newErrors : gmap string string := ∅ in
  let passwordError := validatePassword (password (formData st)) in
  let newErrors :=
    if Js.truthy passwordError
    then <["password" := passwordError]> newErrors else newErrors in
  let confirmPasswordError :=
    validateConfirmPassword (password (formData st))
                            (confirmPassword (formData st)) in
  let newErrors :=
    if Js.truthy confirmPasswordError
    then <["confirmPassword" := confirmPasswordError]> newErrors
    else newErrors in
  let newErrors :=
    if needsReauth st && negb (Js.truthy (nonce (formData st)))
    then <["nonce" := "Verification code is required"]> newErrors
    else newErrors in
  setErrors newErrors;;
  Eff.ret (Nat.eqb (size newErrors) 0).

(** [try]/[finally]: the service call never throws, so the [catch] arm
    has no run; [finally] is the last setter. *)
Definition handleSendReauth : M bool :=
  setIsLoading true;;
  setErrors ∅;;
  let* sent :=
    (let* r := AuthService.reauthenticate supabase in
     match AuthService.ErrorResult.error r with
     | Some e =>
         Eff.emit (Eff.ToastError
           ("Failed to send verification code: " +:+ Types.message e));;
         Eff.ret false
     | None =>
         setReauthSent true;;
         setNeedsReauth true;;
         Eff.emit (Eff.ToastSuccess
           "A verification code has been sent to your email");;
         Eff.ret true
     end) in
  setIsLoading false;;
  Eff.ret sent.

Definition handlePasswordUpdate (st : State) : M unit :=
  let* valid := validateForm st in
  if negb valid then Eff.ret tt
  else
    setIsLoading true;;
    setErrors ∅;;
    (Eff.emit (Eff.ConsoleLog "Updating password...");;
     let* result :=
       AuthService.updatePassword supabase (password (formData st))
         (if needsReauth st then Some (nonce (formData st)) else None) in
     Eff.emit (Eff.ConsoleLog "Update result:");;
     match AuthService.UserResult.error result with
     | Some e =>
         let errorMessage := Js.toLowerCase (Types.message e) in
         if isSamePasswordError errorMessage then
           Eff.emit (Eff.ConsoleLog
             "Error: Password is the same as current password");;
           Eff.emit (Eff.ToastError sameAsCurrentMessage);;
           setIsLoading false
         else if isReauthError errorMessage then
           if negb (needsReauth st) then
             Eff.emit (Eff.ConsoleLog
               "Reauthentication required, sending nonce...");;
             let* sent := handleSendReauth in
             if negb sent then setIsLoading false else Eff.ret tt
           else
             setErrors {[ "nonce" := invalidNonceMessage ]};;
             setIsLoading false
         else if Js.includes errorMessage "timeout" then
           Eff.emit (Eff.ToastError
             "Password update timed out. Please try again.");;
           setIsLoading false
         else
           Eff.emit (Eff.ToastError (Types.message e));;
           setIsLoading false
     | None =>
         Eff.emit (Eff.ConsoleLog "Password updated successfully");;
         Eff.emit (Eff.ToastSuccess
           "Your password has been updated successfully!");;
         setIsSuccess true;;
         if hasOnSuccess then Eff.emit Eff.OnSuccess else Eff.ret tt
     end);;
    setIsLoading false.

End WithClient.

(** *** The rest of the component: strength meter, input and reset *)

Definition withFormData (v : FormData) (s : State) : State :=
  {| formData := v; errors := errors s; isLoading := isLoading s;
     showPassword := showPassword s;
     showConfirmPassword := showConfirmPassword s;
     isSuccess := isSuccess s; needsReauth := needsReauth s;
     reauthSent := reauthSent s |}.

Definition withShowPassword (v : bool) (s : State) : State :=
  {| formData := formData s; errors := errors s; isLoading := isLoading s;
     showPassword := v;
     showConfirmPassword := showConfirmPassword s;
     isSuccess := isSuccess s; needsReauth := needsReauth s;
     reauthSent := reauthSent s |}.

Definition withShowConfirmPassword (v : bool) (s : State) : State :=
  {| formData := formData s; errors := errors s; isLoading := isLoading s;
     showPassword := showPassword s;
     showConfirmPassword := v;
     isSuccess := isSuccess s; needsReauth := needsReauth s;
     reauthSent := reauthSent s |}.

(** The three inputs that [handleInputChange] is attached to. *)
Inductive Field :=
| PasswordField
| ConfirmPasswordField
| NonceField.

Definition fieldName (field : Field) : string :=
  match field with
  | PasswordField => "password"
  | ConfirmPasswordField => "confirmPassword"
  | NonceField => "nonce"
  end.

(** The object spread [{ ...prev, [field]: value }]. *)
Definition setField (field : Field) (v : string) (prev : FormData) : FormData :=
  match field with
  | PasswordField =>
      {| password := v; confirmPassword := confirmPassword prev;
         nonce := nonce prev |}
  | ConfirmPasswordField =>
      {| password := password prev; confirmPassword := v;
         nonce := nonce prev |}
  | NonceField =>
      {| password := password prev; confirmPassword := confirmPassword prev;
         nonce := v |}
  end.

Definition getField (field : Field) (d : FormData) : string :=
  match field with
  | PasswordField => password d
  | ConfirmPasswordField => confirmPassword d
  | NonceField => nonce d
  end.

(** [errors[field]] is read from the render's closure [st]; both setters are
    given updater functions, which act on the pending state. *)
Definition handleInputChange {P : Type} (st : State) (field : Field)
  (value : string) : Eff.M P State unit :=
  Eff.setState
    (fun prev => withFormData (setField field value (formData prev)) prev);;
  if Js.isSome (Js.orUndefined (errors st !! fieldName field)) then
    Eff.setState
      (fun prev =>
         withErrors (<[fieldName field := EmptyString]> (errors prev)) prev)
  else Eff.ret tt.

Definition isAlphanumeric (c : ascii) : bool :=
  Js.inRange "A" "Z" c || Js.inRange "a" "z" c || Js.inRange "0" "9" c.

Definition getPasswordStrength (password : string) : nat :=
  let strength := 0 in
  let strength :=
    if Nat.leb 8 (String.length password) then S strength else strength in
  let strength :=
    if Js.testClass (Js.inRange "a" "z") password
    then S strength else strength in
  let strength :=
    if Js.testClass (Js.inRange "A" "Z") password
    then S strength else strength in
  let strength :=
    if Js.testClass (Js.inRange "0" "9") password
    then S strength else strength in
  let strength :=
    if Js.testClass (fun c => negb (isAlphanumeric c)) password
    then S strength else strength in
  strength.

Record StrengthLabel := {
  label : string;
  color : string
}.

Definition getPasswordStrengthLabel (strength : nat) : StrengthLabel :=
  match strength with
  | 0 | 1 => {| label := "Very Weak"; color := "text-red-500" |}
  | 2 => {| label := "Weak"; color := "text-orange-500" |}
  | 3 => {| label := "Fair"; color := "text-yellow-500" |}
  | 4 => {| label := "Good"; color := "text-blue-500" |}
  | 5 => {| label := "Strong"; color := "text-green-500" |}
  | _ => {| label := EmptyString; color := EmptyString |}
  end.

Definition resetForm {P : Type} : Eff.M P State unit :=
  Eff.setState
    (withFormData {| password := EmptyString; confirmPassword := EmptyString;
                     nonce := EmptyString |});;
  Eff.setState (withErrors ∅);;
  Eff.setState (withIsSuccess false);;
  Eff.setState (withShowPassword false);;
  Eff.setState (withShowConfirmPassword false);;
  Eff.setState (withNeedsReauth false);;
  Eff.setState (withReauthSent false).

End DashboardPasswordReset.

(** ** Reset password form (ResetPasswordForm component) *)

Module ResetPasswordForm.

Record FormData := {
  password : string;
  confirmPassword : string
}.

Record State := {
  formData : FormData;
  errors : gmap string string;
  isLoading : bool;
  showPassword : bool;
  showConfirmPassword : bool;
  isTokenValid : option bool;
  isSuccess : bool
}.

Definition withErrors (v : gmap string string) (s : State) : State :=
  {| formData := formData s; errors := v; isLoading := isLoading s;
     showPassword := showPassword s;
     showConfirmPassword := showConfirmPassword s;
     isTokenValid := isTokenValid s; isSuccess := isSuccess s |}.

Definition withIsLoading (v : bool) (s : State) : State :=
  {| formData := formData s; errors := errors s; isLoading := v;
     showPassword := showPassword s;
     showConfirmPassword := showConfirmPassword s;
     isTokenValid := isTokenValid s; isSuccess := isSuccess s |}.

Definition withIsSuccess (v : bool) (s : State) : State :=
  {| formData := formData s; errors := errors s; isLoading := isLoading s;
     showPassword := showPassword s;
     showConfirmPassword := showConfirmPassword s;
     isTokenValid := isTokenValid s; isSuccess := v |}.

(** The bracket expression of the last rule of [validatePassword]. *)
Definition specialChars : string :=
  "!@#$%^&*()_+-=[]{};':" +:+ String "034"%char "\|,.<>/?".

Definition validatePassword (password : string) : string :=
  if negb (Js.truthy password) then "Password is required"
  else if Nat.ltb (String.length password) 8
    then "Password must be at least 8 characters"
  else if Nat.ltb 128 (String.length password)
    then "Password is too long"
  else if negb (Js.testClass (Js.inRange "a" "z") password)
    then "Password must contain at least one lowercase letter"
  else if negb (Js.testClass (Js.inRange "A" "Z") password)
    then "Password must contain at least one uppercase letter"
  else if negb (Js.testClass (Js.inRange "0" "9") password)
    then "Password must contain at least one number"
  else if negb (Js.testClass (Js.inString specialChars) password)
    then "Password must contain at least one special character"
  else EmptyString.

Definition validateConfirmPassword (password confirmPassword : string)
  : string :=
  if negb (Js.truthy confirmPassword) then "Please confirm your password"
  else if negb (String.eqb password confirmPassword)
    then "Passwords do not match"
  else EmptyString.

(** The console line of the branch taken when a result has neither an error
    nor a user. *)
Definition unclearLabel : string :=
  "Unexpected: No error but no user indicator".

Section WithClient.
Context {P : Type} (supabase : Supabase.AuthClient P).
Variable hasOnSuccess : bool.

Local Abbreviation M := (Eff.M P State).

Definition setErrors (v : gmap string string) : M unit :=
  Eff.setState (withErrors v).
Definition setIsLoading (v : bool) : M unit :=
  Eff.setState (withIsLoading v).
Definition setIsSuccess (v : bool) : M unit :=
  Eff.setState (withIsSuccess v).

Definition validateForm (st : State) : M bool :=
  let newErrors : gmap string string := ∅ in
  let passwordError := validatePassword (password (formData st)) in
  let newErrors :=
    if Js.truthy passwordError
    then <["password" := passwordError]> newErrors else newErrors in
  let confirmPasswordError :=
    validateConfirmPassword (password (formData st))
                            (confirmPassword (formData st)) in
  let newErrors :=
    if Js.truthy confirmPasswordError
    then <["confirmPassword" := confirmPasswordError]> newErrors
    else newErrors in
  setErrors newErrors;;
  Eff.ret (Nat.eqb (size newErrors) 0).

(** As in the dashboard form, the [catch] arm has no run and [finally] is the
    last setter. *)
Definition handleSubmit (st : State) : M unit :=
  let* valid := validateForm st in
  if negb valid then Eff.ret tt
  else
    setIsLoading true;;
    setErrors ∅;;
    (Eff.emit (Eff.ConsoleLog "Updating password...");;
     let* result :=
       AuthService.updatePassword supabase (password (formData st)) None in
     Eff.emit (Eff.ConsoleLog "Form: Received result:");;
     match AuthService.UserResult.error result with
     | Some e =>
         Eff.emit (Eff.ConsoleError "Password update error:");;
         setErrors {[ "submit" := Types.message e ]};;
         Eff.emit (Eff.ToastError
           (if Js.truthy (Types.message e) then Types.message e
            else "Failed to reset password."))
     | None =>
         if Js.isSome (AuthService.UserResult.user result) then
           Eff.emit (Eff.ConsoleLog
             "Password updated successfully - showing success state");;
           setIsSuccess true;;
           Eff.emit (Eff.ToastSuccess "Password has been reset successfully!");;
           if hasOnSuccess then Eff.emit Eff.OnSuccess else Eff.ret tt
         else
           Eff.emit (Eff.ConsoleLog unclearLabel);;
           setErrors {[ "submit" :=
             "Password update status unclear - please try logging in" ]};;
           Eff.emit (Eff.ToastError
             "Password update status unclear - please try logging in with your new password.")
     end);;
    setIsLoading false.

End WithClient.

(** *** The rest of the component: strength meter and input *)

Definition withFormData (v : FormData) (s : State) : State :=
  {| formData := v; errors := errors s; isLoading := isLoading s;
     showPassword := showPassword s;
     showConfirmPassword := showConfirmPassword s;
     isTokenValid := isTokenValid s; isSuccess := isSuccess s |}.

Definition withIsTokenValid (v : option bool) (s : State) : State :=
  {| formData := formData s; errors := errors s; isLoading := isLoading s;
     showPassword := showPassword s;
     showConfirmPassword := showConfirmPassword s;
     isTokenValid := v; isSuccess := isSuccess s |}.

(** [keyof typeof formData] *)
Inductive Field :=
| PasswordField
| ConfirmPasswordField.

Definition fieldName (field : Field) : string :=
  match field with
  | PasswordField => "password"
  | ConfirmPasswordField => "confirmPassword"
  end.

Definition setField (field : Field) (v : string) (prev : FormData) : FormData :=
  match field with
  | PasswordField =>
      {| password := v; confirmPassword := confirmPassword prev |}
  | ConfirmPasswordField =>
      {| password := password prev; confirmPassword := v |}
  end.

Definition getField (field : Field) (d : FormData) : string :=
  match field with
  | PasswordField => password d
  | ConfirmPasswordField => confirmPassword d
  end.

Definition handleInputChange {P : Type} (st : State) (field : Field)
  (value : string) : Eff.M P State unit :=
  Eff.setState
    (fun prev => withFormData (setField field value (formData prev)) prev);;
  if Js.isSome (Js.orUndefined (errors st !! fieldName field)) then
    Eff.setState
      (fun prev =>
         withErrors (<[fieldName field := EmptyString]> (errors prev)) prev)
  else Eff.ret tt.

Definition getPasswordStrength (password : string) : nat :=
  let score := 0 in
  let score :=
    if Nat.leb 8 (String.length password) then S score else score in
  let score :=
    if Js.testClass (Js.inRange "a" "z") password then S score else score in
  let score :=
    if Js.testClass (Js.inRange "A" "Z") password then S score else score in
  let score :=
    if Js.testClass (Js.inRange "0" "9") password then S score else score in
  let score :=
    if Js.testClass (Js.inString specialChars) password
    then S score else score in
  score.

End ResetPasswordForm.

(** ** The session calls of the provider client

    The calls of [supabase.auth] that deal with sessions, and the browser
    history call of the reset service, with a log of their own. *)

Module Client.

(** A provider session.  The code tests the session's user for presence. *)
Module Session.
Record t := {
  access_token : string;
  refresh_token : string;
  expires_in : nat;
  token_type : string;
  user : option Types.AuthUser
}.
End Session.

(** [data] of [getSession]. *)
Module SessionData.
Record t := { session : option Session.t }.
End SessionData.

(** [data] of [signInWithPassword], [signUp] and [setSession]. *)
Module AuthData.
Record t := {
  user : option Types.AuthUser;
  session : option Session.t
}.
End AuthData.

(** The optional [userData] of [signUp], with its optional [full_name]. *)
Record SignUpData := { full_name : option string }.

Inductive Event :=
| Auth (e : Eff.Event)
| CallGetSession
| CallSignInWithPassword (email password : string)
| CallSignUp (email password : string) (userData : option SignUpData)
| CallSignOut
| CallSetSession (access_token refresh_token : string)
| CallSignInWithOAuth (provider redirectTo : string)
| CallReplaceState (url : string)
| ConsoleWarn (label : string).

(** Each call maps a state of the world (provider and browser) to an outcome
    and a new state. *)
Record Api (W : Type) := {
  auth : Supabase.AuthClient W;
  getSession :
    W -> Supabase.Outcome (Supabase.Response SessionData.t) * W;
  signInWithPassword :
    string -> string ->
    W -> Supabase.Outcome (Supabase.Response AuthData.t) * W;
  signUp :
    string -> string -> option SignUpData ->
    W -> Supabase.Outcome (Supabase.Response AuthData.t) * W;
  signOut : W -> Supabase.Outcome (Supabase.Response unit) * W;
  setSession :
    string -> string ->
    W -> Supabase.Outcome (Supabase.Response AuthData.t) * W;
  signInWithOAuth :
    string -> string -> W -> Supabase.Outcome (Supabase.Response unit) * W
}.
Arguments auth {W} _.
Arguments getSession {W} _ _.
Arguments signInWithPassword {W} _ _ _ _.
Arguments signUp {W} _ _ _ _ _.
Arguments signOut {W} _ _.
Arguments setSession {W} _ _ _ _.
Arguments signInWithOAuth {W} _ _ _ _.

Record Env (W : Type) := {
  world : W;
  log : list Event
}.
Arguments world {W} _.
Arguments log {W} _.

Definition M (W A : Type) : Type := Env W -> A * Env W.

Definition ret {W A} (a : A) : M W A := fun env => (a, env).

Definition bind {W A B} (m : M W A) (k : A -> M W B) : M W B :=
  fun env => let (a, env') := m env in k a env'.

Definition emit {W} (e : Event) : M W unit :=
  fun env => (tt, {| world := world env; log := log env ++ [e] |}).

Definition call {W A} (e : Event) (f : W -> A * W) : M W A :=
  fun env =>
    let (a, w') := f (world env) in
    (a, {| world := w'; log := log env ++ [e] |}).

(** Read something off the world. *)
Definition get {W A} (f : W -> A) : M W A :=
  fun env => (f (world env), env).

Definition consoleLog {W} (label : string) : M W unit :=
  emit (Auth (Eff.ConsoleLog label)).

Definition consoleError {W} (label : string) : M W unit :=
  emit (Auth (Eff.ConsoleError label)).

(** The provider calls a log records, without the console lines. *)
Definition isCall (e : Event) : bool :=
  match e with
  | Auth (Eff.CallUpdateUser _) | Auth Eff.CallReauthenticate
  | Auth (Eff.CallResetPasswordForEmail _ _)
  | CallGetSession | CallSignInWithPassword _ _ | CallSignUp _ _ _
  | CallSignOut | CallSetSession _ _ | CallSignInWithOAuth _ _
  | CallReplaceState _ => true
  | _ => false
  end.

Definition calls (l : list Event) : list Event := List.filter isCall l.

End Client.

Declare Scope client_scope.
Delimit Scope client_scope with client.
Notation "'let*' x ':=' m 'in' k" := (Client.bind m (fun x => k))
  (at level 10, x name, m at level 100, k at level 200) : client_scope.
Notation "m ';;' k" := (Client.bind m (fun _ => k))
  (at level 100, k at level 200, right associativity) : client_scope.

(** ** Auth service: the session operations (frontend/src/lib/auth.ts) *)

Module AuthServiceSession.
Local Open Scope client_scope.

(** Results of shape [{ user, session, error }]. *)
Module SessionResult.
Record t := {
  user : option Types.AuthUser;
  session : option Client.Session.t;
  error : option Types.AuthError
}.
End SessionResult.

(** Results of shape [{ valid, error }]. *)
Module VerifyResult.
Record t := {
  valid : bool;
  error : option Types.AuthError
}.
End VerifyResult.

Definition failed (m : string) : SessionResult.t :=
  {| SessionResult.user := None; SessionResult.session := None;
     SessionResult.error := Some (Types.errorOf m) |}.

Inductive OAuthProvider :=
| google
| github
| facebook.

Definition providerName (p : OAuthProvider) : string :=
  match p with
  | google => "google"
  | github => "github"
  | facebook => "facebook"
  end.

Section WithApi.
Context {W : Type} (supabase : Client.Api W).

(** Reading a property of a [data] that is null throws, which lands in the
    [catch] arm like a throwing call. *)
Definition getSession : Client.M W SessionResult.t :=
  let* o := Client.call Client.CallGetSession (Client.getSession supabase) in
  match o with
  | Supabase.Returned r =>
      match Supabase.error r with
      | Some e => Client.ret (failed (Types.message e))
      | None =>
          match Supabase.data r with
          | Some d =>
              Client.ret
                {| SessionResult.user :=
                     match Client.SessionData.session d with
                     | Some s => Client.Session.user s
                     | None => None
                     end;
                   SessionResult.session := Client.SessionData.session d;
                   SessionResult.error := None |}
          | None => Client.ret (failed "Failed to get session")
          end
      end
  | Supabase.Threw _ => Client.ret (failed "Failed to get session")
  end.

Definition signInWithPassword (email password : string)
  : Client.M W SessionResult.t :=
  let* o := Client.call (Client.CallSignInWithPassword email password)
              (Client.signInWithPassword supabase email password) in
  match o with
  | Supabase.Returned r =>
      match Supabase.error r with
      | Some e => Client.ret (failed (Types.message e))
      | None =>
          match Supabase.data r with
          | Some d =>
              Client.ret
                {| SessionResult.user := Client.AuthData.user d;
                   SessionResult.session := Client.AuthData.session d;
                   SessionResult.error := None |}
          | None => Client.ret (failed "Failed to sign in")
          end
      end
  | Supabase.Threw _ => Client.ret (failed "Failed to sign in")
  end.

Definition signUp (email password : string)
  (userData : option Client.SignUpData) : Client.M W SessionResult.t :=
  let* o := Client.call (Client.CallSignUp email password userData)
              (Client.signUp supabase email password userData) in
  match o with
  | Supabase.Returned r =>
      match Supabase.error r with
      | Some e => Client.ret (failed (Types.message e))
      | None =>
          match Supabase.data r with
          | Some d =>
              Client.ret
                {| SessionResult.user := Client.AuthData.user d;
                   SessionResult.session := Client.AuthData.session d;
                   SessionResult.error := None |}
          | None => Client.ret (failed "Failed to sign up")
          end
      end
  | Supabase.Threw _ => Client.ret (failed "Failed to sign up")
  end.

Definition signOut : Client.M W AuthService.ErrorResult.t :=
  let* o := Client.call Client.CallSignOut (Client.signOut supabase) in
  match o with
  | Supabase.Returned r =>
      match Supabase.error r with
      | Some e =>
          Client.ret {| AuthService.ErrorResult.error :=
                          Some (Types.errorOf (Types.message e)) |}
      | None => Client.ret {| AuthService.ErrorResult.error := None |}
      end
  | Supabase.Threw _ =>
      Client.ret {| AuthService.ErrorResult.error :=
                      Some (Types.errorOf "Failed to sign out") |}
  end.

Definition verifyPasswordResetToken : Client.M W VerifyResult.t :=
  let thrown :=
    {| VerifyResult.valid := false;
       VerifyResult.error :=
         Some (Types.errorOf "Failed to verify reset token") |} in
  let* o := Client.call Client.CallGetSession (Client.getSession supabase) in
  match o with
  | Supabase.Returned r =>
      match Supabase.error r with
      | Some e =>
          Client.ret {| VerifyResult.valid := false;
                        VerifyResult.error :=
                          Some (Types.errorOf (Types.message e)) |}
      | None =>
          match Supabase.data r with
          | Some d =>
              if match Client.SessionData.session d with
                 | Some s => Js.isSome (Client.Session.user s)
                 | None => false
                 end
              then Client.ret {| VerifyResult.valid := true;
                                 VerifyResult.error := None |}
              else Client.ret
                     {| VerifyResult.valid := false;
                        VerifyResult.error :=
                          Some (Types.errorOf "Invalid or expired reset token") |}
          | None => Client.ret thrown
          end
      end
  | Supabase.Threw _ => Client.ret thrown
  end.

(** [origin] is [window.location.origin]. *)
Definition signInWithGoogle (origin : string)
  : Client.M W AuthService.ErrorResult.t :=
  let redirectTo := origin +:+ "/auth/callback" in
  let* o := Client.call (Client.CallSignInWithOAuth "google" redirectTo)
              (Client.signInWithOAuth supabase "google" redirectTo) in
  match o with
  | Supabase.Returned r =>
      match Supabase.error r with
      | Some e =>
          Client.ret {| AuthService.ErrorResult.error :=
                          Some (Types.errorOf (Types.message e)) |}
      | None => Client.ret {| AuthService.ErrorResult.error := None |}
      end
  | Supabase.Threw _ =>
      Client.ret {| AuthService.ErrorResult.error :=
                      Some (Types.errorOf "Failed to sign in with Google") |}
  end.

Definition signInWithOAuth (origin : string) (provider : OAuthProvider)
  : Client.M W AuthService.ErrorResult.t :=
  let redirectTo := origin +:+ "/auth/callback" in
  let* o := Client.call
              (Client.CallSignInWithOAuth (providerName provider) redirectTo)
              (Client.signInWithOAuth supabase (providerName provider)
                 redirectTo) in
  match o with
  | Supabase.Returned r =>
      match Supabase.error r with
      | Some e =>
          Client.ret {| AuthService.ErrorResult.error :=
                          Some (Types.errorOf (Types.message e)) |}
      | None => Client.ret {| AuthService.ErrorResult.error := None |}
      end
  | Supabase.Threw _ =>
      Client.ret {| AuthService.ErrorResult.error :=
                      Some (Types.errorOf
                              ("Failed to sign in with " +:+
                               providerName provider)) |}
  end.

End WithApi.

End AuthServiceSession.

(** ** [URLSearchParams], as far as the reset service uses it

    The constructor drops one leading question mark and parses the rest as
    [application/x-www-form-urlencoded]: split at ampersands, skip empty
    pieces, split each piece at its first equals sign, turn plus signs into
    spaces and percent-decode.  Strings being byte sequences here, the final
    UTF-8 decoding is the identity (ill-formed sequences are not replaced). *)

Module URLSearchParams.

Fixpoint splitOn (sep : ascii) (s : string) : list string :=
  match s with
  | EmptyString => [EmptyString]
  | String c rest =>
      if Ascii.eqb c sep then EmptyString :: splitOn sep rest
      else match splitOn sep rest with
           | [] => [String c EmptyString]
           | piece :: pieces => String c piece :: pieces
           end
  end.

(** Name and value of one piece: the value is empty without an equals sign. *)
Fixpoint splitFirst (sep : ascii) (s : string) : string * string :=
  match s with
  | EmptyString => (EmptyString, EmptyString)
  | String c rest =>
      if Ascii.eqb c sep then (EmptyString, rest)
      else let (n, v) := splitFirst sep rest in (String c n, v)
  end.

Fixpoint plusToSpace (s : string) : string :=
  match s with
  | EmptyString => EmptyString
  | String c rest =>
      String (if Ascii.eqb c "+" then " "%char else c) (plusToSpace rest)
  end.

Definition hexValue (c : ascii) : option nat :=
  let n := nat_of_ascii c in
  if Js.inRange "0" "9" c then Some (n - 48)
  else if Js.inRange "A" "F" c then Some (n - 55)
  else if Js.inRange "a" "f" c then Some (n - 87)
  else None.

Fixpoint percentDecode (s : string) : string :=
  match s with
  | EmptyString => EmptyString
  | String c rest =>
      if Ascii.eqb c "%" then
        match rest with
        | String h (String l rest') =>
            match hexValue h, hexValue l with
            | Some a, Some b =>
                String (ascii_of_nat (16 * a + b)) (percentDecode rest')
            | _, _ => String c (percentDecode rest)
            end
        | _ => String c (percentDecode rest)
        end
      else String c (percentDecode rest)
  end.

Definition decode (s : string) : string := percentDecode (plusToSpace s).

Definition parsePiece (piece : string) : list (string * string) :=
  match piece with
  | EmptyString => []
  | _ => let (n, v) := splitFirst "=" piece in [(decode n, decode v)]
  end.

Definition parse (input : string) : list (string * string) :=
  flat_map parsePiece (splitOn "&" input).

(** [new URLSearchParams(init)] for a string [init]. *)
Definition new (init : string) : list (string * string) :=
  parse (if Js.startsWith init "?" then Js.substring1 init else init).

(** [params.get(name)]: the value of the first pair called [name]. *)
Fixpoint get (params : list (string * string)) (name : string)
  : option string :=
  match params with
  | [] => None
  | (k, v) :: rest => if String.eqb k name then Some v else get rest name
  end.

End URLSearchParams.

(** ** Password reset service: [extractTokensFromUrl] *)

Module PasswordResetService.

(** [window.location], restricted to the two properties read. *)
Record Location := {
  hash : string;
  search : string
}.

Record Tokens := {
  accessToken : option string;
  refreshToken : option string
}.

(** Nothing in the [try] block throws, so the [catch] arm has no run. *)
Definition extractTokensFromUrl (location : Location) : Tokens :=
  let hashParams := URLSearchParams.new (Js.substring1 (hash location)) in
  let searchParams := URLSearchParams.new (search location) in
  {| accessToken :=
       Js.orUndefined
         (Js.or (URLSearchParams.get hashParams "access_token")
                (URLSearchParams.get searchParams "access_token"));
     refreshToken :=
       Js.orUndefined
         (Js.or (URLSearchParams.get hashParams "refresh_token")
                (URLSearchParams.get searchParams "refresh_token")) |}.

(** *** The asynchronous steps of the service *)

Local Open Scope client_scope.

(** The [data] of a result: a message, or a user (the provider's user, none,
    or the literal that stands for an update without user data). *)
Inductive ResultData :=
| MessageData (message : string)
| UserData (user : option AuthService.UserOrFlag).

Record PasswordResetResult := {
  success : bool;
  error : option string;
  data : option ResultData
}.

(** The browser window, as the service reads and changes it:
    [window.location], its [origin] and [pathname], and
    [window.history.replaceState], which may throw. *)
Record Window (W : Type) := {
  location : W -> Location;
  origin : W -> string;
  pathname : W -> string;
  replaceState : string -> W -> option Supabase.Thrown * W
}.
Arguments location {W} _ _.
Arguments origin {W} _ _.
Arguments pathname {W} _ _.
Arguments replaceState {W} _ _ _.

Definition failure (m : string) : PasswordResetResult :=
  {| success := false; error := Some m; data := None |}.

Section WithApi.
Context {W : Type} (supabase : Client.Api W) (window : Window W).

Definition sendResetEmail (email : string) : Client.M W PasswordResetResult :=
  Client.consoleLog "PasswordResetService: Sending reset email to:";;
  let* base := Client.get (origin window) in
  let redirectTo := base +:+ "/auth/reset-password" in
  let* o := Client.call
              (Client.Auth (Eff.CallResetPasswordForEmail email redirectTo))
              (Supabase.resetPasswordForEmail (Client.auth supabase)
                 email redirectTo) in
  match o with
  | Supabase.Returned r =>
      match Supabase.error r with
      | Some e =>
          Client.consoleError "PasswordResetService: Send email error:";;
          Client.ret (failure (Types.message e))
      | None =>
          Client.consoleLog "PasswordResetService: Reset email sent successfully";;
          Client.ret
            {| success := true; error := None;
               data := Some (MessageData
                               "Password reset email sent successfully") |}
      end
  | Supabase.Threw _ =>
      Client.consoleError
        "PasswordResetService: Unexpected error sending email:";;
      Client.ret (failure "Failed to send password reset email")
  end.

(** The [catch] arm of [verifyResetSession]; a [data] that is null makes the
    property access throw into it. *)
Definition verifyThrown : Client.M W PasswordResetResult :=
  Client.consoleError
    "PasswordResetService: Unexpected error verifying session:";;
  Client.ret (failure "Failed to verify reset link").

Definition verifyResetSession : Client.M W PasswordResetResult :=
  Client.consoleLog "PasswordResetService: Verifying reset session";;
  let* loc := Client.get (location window) in
  let tokens := extractTokensFromUrl loc in
  Client.consoleLog "PasswordResetService: Extracted tokens:";;
  match Js.orUndefined (accessToken tokens),
        Js.orUndefined (refreshToken tokens) with
  | Some access, Some refresh =>
      Client.consoleLog
        "PasswordResetService: Setting session with extracted tokens";;
      let* o := Client.call (Client.CallSetSession access refresh)
                  (Client.setSession supabase access refresh) in
      match o with
      | Supabase.Returned r =>
          match Supabase.error r with
          | Some e =>
              Client.consoleError
                "PasswordResetService: Failed to set session:";;
              Client.ret (failure "Invalid or expired reset link")
          | None =>
              Client.consoleLog
                "PasswordResetService: Session set successfully";;
              match Supabase.data r with
              | Some d =>
                  Client.ret
                    {| success := true; error := None;
                       data := Some (UserData
                                 (option_map AuthService.RealUser
                                    (Client.AuthData.user d))) |}
              | None => verifyThrown
              end
          end
      | Supabase.Threw _ => verifyThrown
      end
  | _, _ =>
      Client.consoleLog
        "PasswordResetService: No tokens in URL, checking current session";;
      let* o := Client.call Client.CallGetSession
                  (Client.getSession supabase) in
      match o with
      | Supabase.Returned r =>
          match Supabase.error r with
          | Some e =>
              Client.consoleLog
                "PasswordResetService: No valid session found";;
              Client.ret (failure "Invalid or expired reset link")
          | None =>
              match Supabase.data r with
              | Some d =>
                  match Client.SessionData.session d with
                  | Some s =>
                      Client.consoleLog
                        "PasswordResetService: Found existing valid session";;
                      Client.ret
                        {| success := true; error := None;
                           data := Some (UserData
                                     (option_map AuthService.RealUser
                                        (Client.Session.user s))) |}
                  | None =>
                      Client.consoleLog
                        "PasswordResetService: No valid session found";;
                      Client.ret (failure "Invalid or expired reset link")
                  end
              | None => verifyThrown
              end
          end
      | Supabase.Threw _ => verifyThrown
      end
  end.

Definition cleanupUrl : Client.M W unit :=
  let* path := Client.get (pathname window) in
  let* thrown := Client.call (Client.CallReplaceState path)
                   (replaceState window path) in
  match thrown with
  | Some _ =>
      Client.emit
        (Client.ConsoleWarn "PasswordResetService: Could not clean up URL:")
  | None => Client.ret tt
  end.

Definition updatePassword (newPassword : string)
  : Client.M W PasswordResetResult :=
  Client.consoleLog "PasswordResetService: Starting password update";;
  let* sessionResult := verifyResetSession in
  if negb (success sessionResult) then
    Client.consoleError
      "PasswordResetService: Session verification failed before password update";;
    Client.ret sessionResult
  else
    Client.consoleLog
      "PasswordResetService: Session verified, proceeding with password update";;
    let updateData :=
      {| Supabase.password := newPassword; Supabase.nonce := None |} in
    let* o := Client.call (Client.Auth (Eff.CallUpdateUser updateData))
                (Supabase.updateUser (Client.auth supabase) updateData) in
    match o with
    | Supabase.Returned r =>
        Client.consoleLog "PasswordResetService: updateUser response:";;
        match Supabase.error r with
        | Some e =>
            Client.consoleError
              "PasswordResetService: Password update error:";;
            Client.ret (failure (Types.message e))
        | None =>
            Client.consoleLog
              "PasswordResetService: Password updated successfully!";;
            cleanupUrl;;
            let u :=
              match Supabase.data r with
              | Some d =>
                  match Supabase.user d with
                  | Some u => AuthService.RealUser u
                  | None => AuthService.UpdatedFlag
                  end
              | None => AuthService.UpdatedFlag
              end in
            Client.ret {| success := true; error := None;
                          data := Some (UserData (Some u)) |}
        end
    | Supabase.Threw _ =>
        Client.consoleError
          "PasswordResetService: Unexpected error updating password:";;
        Client.ret (failure "Failed to update password")
    end.

Definition completePasswordReset (newPassword : string)
  : Client.M W PasswordResetResult :=
  updatePassword newPassword.

End WithApi.

End PasswordResetService.

(** * Vocabulary of the statements and sample inputs *)

Module Samples.
Import Middleware.

(** The redirect of an unauthenticated request for [path]. *)
Definition loginRedirect (request : NextRequest) : NextResponse :=
  Redirect {| origin := origin (url request);
              pathname := "/auth/login";
              searchParams := [("redirectTo", pathname (url request))] |}.

(** The redirect of an authenticated request for a login page. *)
Definition dashboardRedirect (request : NextRequest) : NextResponse :=
  Redirect {| origin := origin (url request);
              pathname := "/dashboard";
              searchParams := [] |}.

Definition requestFor (path : string) : NextRequest :=
  {| url := {| origin := "https://movies.example";
               pathname := path;
               searchParams := [("tab", "reviews")] |};
     cookies := [] |}.

Definition signedOut : GetUserResponse :=
  {| data_user := None; error := None; setAllCalls := [] |}.

Definition signedIn : GetUserResponse :=
  {| data_user := Some {| user_id := "u-1" |}; error := None;
     setAllCalls := [[ {| name := "sb-access-token"; value := "t" |} ]] |}.

Definition providerFailure : GetUserResponse :=
  {| data_user := None;
     error := Some {| message := "fetch failed" |};
     setAllCalls := [] |}.

End Samples.

(** The password-strength policy in the words of the specification: length
    at least 8 and at most 128, with a lowercase letter, an uppercase letter,
    a digit and a symbol. *)
Module PasswordPolicy.






End PasswordPolicy.

(** A reset-callback URL carries a token in a parameter list when the list
    has a non-empty value under the token's name. *)
Module Callback.
Import PasswordResetService.

Definition hashParams (location : Location) : list (string * string) :=
  URLSearchParams.new (Js.substring1 (hash location)).

Definition searchParams (location : Location) : list (string * string) :=
  URLSearchParams.new (search location).



Definition fragmentLink : Location :=
  {| hash := "#access_token=abc&refresh_token=d%2Fe&type=recovery";
     search := EmptyString |}.

Definition queryLink : Location :=
  {| hash := EmptyString;
     search := "?type=recovery&access_token=abc&refresh_token=def" |}.

End Callback.

(** Runs of the client-side handlers: where a handler starts, and what the
    provider answers along the way. *)
Module Run.

(** Toasts, and the console line of the form's no-error-no-user branch. *)
Definition isToast (e : Eff.Event) : bool :=
  match e with
  | Eff.ToastError _ | Eff.ToastSuccess _ => true
  | _ => false
  end.

Definition isUnclear (e : Eff.Event) : bool :=
  match e with
  | Eff.ConsoleLog l => String.eqb l ResetPasswordForm.unclearLabel
  | _ => false
  end.

Definition toasts (l : list Eff.Event) : list Eff.Event :=
  List.filter isToast l.

(** Events that are neither toasts, nor nonce dispatches, nor the console
    line of the form's no-error-no-user branch. *)
Definition quiet (evs : list Eff.Event) : Prop :=
  List.filter isToast evs = [] /\
  List.filter Eff.isReauthCall evs = [] /\
  List.filter isUnclear evs = [].

(** A handler of the render with state [st] starts with [st] pending. *)
Definition start {P C : Type} (st : C) (p : P) (l : list Eff.Event)
  : Eff.Env P C :=
  {| Eff.provider := p; Eff.component := st; Eff.log := l |}.

(** The provider answered without an error. *)
Definition accepted {D : Type} (o : Supabase.Outcome (Supabase.Response D))
  : bool :=
  match o with
  | Supabase.Returned r => negb (Js.isSome (Supabase.error r))
  | Supabase.Threw _ => false
  end.

Section Dashboard.
Import DashboardPasswordReset.
Context {P : Type} (supabase : Supabase.AuthClient P).

Definition formValid (st : State) (p : P) : bool :=
  fst (validateForm st (start st p [])).

(** The nonce argument of the submission made from [st]. *)
Definition nonceArgument (st : State) : option string :=
  if needsReauth st then Some (nonce (formData st)) else None.

Definition updateData (st : State) : Supabase.UpdateData :=
  {| Supabase.password := password (formData st);
     Supabase.nonce := Js.orUndefined (nonceArgument st) |}.

(** The error of the service result for the submission made from [st]. *)
Definition rejection (st : State) (p : P) : option Types.AuthError :=
  AuthService.UserResult.error
    (fst (AuthService.updatePassword supabase (password (formData st))
            (nonceArgument st) (start st p []))).

(** The provider state once it has answered the update. *)
Definition afterUpdate (st : State) (p : P) : P :=
  snd (Supabase.updateUser supabase (updateData st) p).

(** The nonce dispatch that follows the update is answered without error. *)
Definition dispatchSucceeds (st : State) (p : P) : bool :=
  accepted (fst (Supabase.reauthenticate supabase (afterUpdate st p))).

Definition submitted (hasOnSuccess : bool) (st : State) (p : P)
  (l : list Eff.Event) : Eff.Env P State :=
  snd (handlePasswordUpdate supabase hasOnSuccess st (start st p l)).

End Dashboard.

Definition answer {D : Type} (d : option D)
  : Supabase.Outcome (Supabase.Response D) :=
  Supabase.Returned {| Supabase.data := d; Supabase.error := None |}.

Definition reject {D : Type} (m : string)
  : Supabase.Outcome (Supabase.Response D) :=
  Supabase.Returned
    {| Supabase.data := None; Supabase.error := Some (Types.errorOf m) |}.

(** A provider that knows one account and says so: it refuses the reset
    mail for every other address. *)
Definition knownUsersClient : Supabase.AuthClient unit :=
  {| Supabase.updateUser := fun _ p =>
       (answer (Some {| Supabase.user := None |}), p);
     Supabase.reauthenticate := fun p => (answer None, p);
     Supabase.resetPasswordForEmail := fun email _ p =>
       if String.eqb email "ann@example.com"
       then (answer None, p)
       else (reject "User not found", p) |}.

(** A provider that wants the nonce 123456 for a password change; whether it
    manages to mail a nonce is [mails]. *)
Definition reauthClient (mails : bool) : Supabase.AuthClient unit :=
  {| Supabase.updateUser := fun d p =>
       match Supabase.nonce d with
       | None => (reject "Password update requires reauthentication", p)
       | Some n =>
           if String.eqb n "123456"
           then (answer (Some {| Supabase.user := None |}), p)
           else (reject "Nonce has expired or is invalid", p)
       end;
     Supabase.reauthenticate := fun p =>
       if mails then (answer None, p)
       else (reject "Email rate limit exceeded", p);
     Supabase.resetPasswordForEmail := fun _ _ p => (answer None, p) |}.

(** A provider that finds the new password equal to the current one. *)
Definition samePasswordClient : Supabase.AuthClient unit :=
  {| Supabase.updateUser := fun _ p =>
       (reject "New password should be different from the old password.", p);
     Supabase.reauthenticate := fun p => (answer None, p);
     Supabase.resetPasswordForEmail := fun _ _ p => (answer None, p) |}.

(** A provider whose reauthentication rejection says that a nonce was
    already sent. *)
Definition alreadySentClient : Supabase.AuthClient unit :=
  {| Supabase.updateUser := fun _ p =>
       (reject "Reauthentication nonce was already sent", p);
     Supabase.reauthenticate := fun p => (answer None, p);
     Supabase.resetPasswordForEmail := fun _ _ p => (answer None, p) |}.

(** The reset form filled in with a password that meets the policy. *)
Definition resetFilled : ResetPasswordForm.State :=
  {| ResetPasswordForm.formData :=
       {| ResetPasswordForm.password := "Abcdef1!";
          ResetPasswordForm.confirmPassword := "Abcdef1!" |};
     ResetPasswordForm.errors := ∅;
     ResetPasswordForm.isLoading := false;
     ResetPasswordForm.showPassword := false;
     ResetPasswordForm.showConfirmPassword := false;
     ResetPasswordForm.isTokenValid := Some true;
     ResetPasswordForm.isSuccess := false |}.

(** The dashboard form filled in with a password that meets the policy. *)
Definition filled (code : string) (asked : bool)
  : DashboardPasswordReset.State :=
  {| DashboardPasswordReset.formData :=
       {| DashboardPasswordReset.password := "Abcdef1!";
          DashboardPasswordReset.confirmPassword := "Abcdef1!";
          DashboardPasswordReset.nonce := code |};
     DashboardPasswordReset.errors := ∅;
     DashboardPasswordReset.isLoading := false;
     DashboardPasswordReset.showPassword := false;
     DashboardPasswordReset.showConfirmPassword := false;
     DashboardPasswordReset.isSuccess := false;
     DashboardPasswordReset.needsReauth := asked;
     DashboardPasswordReset.reauthSent := asked |}.

End Run.

(** Further sample inputs. *)
Module MoreSamples.

(** The request a browser makes when it follows a redirect to [u]. *)
Definition follow (u : Middleware.URL) (cs : list Middleware.Cookie)
  : Middleware.NextRequest :=
  {| Middleware.url := u; Middleware.cookies := cs |}.

(** A provider that rejects every password update with the message [m]. *)
Definition rejectingClient (m : string) : Supabase.AuthClient unit :=
  {| Supabase.updateUser := fun _ p => (Run.reject m, p);
     Supabase.reauthenticate := fun p => (Run.answer None, p);
     Supabase.resetPasswordForEmail := fun _ _ p => (Run.answer None, p) |}.

End MoreSamples.

(** Counting what a run of a form handler did. *)
Module Tally.

Definition isUpdateCall (e : Eff.Event) : bool :=
  match e with
  | Eff.CallUpdateUser _ => true
  | _ => false
  end.

(** The password updates sent to the provider, in order. *)
Definition updateCalls (l : list Eff.Event) : list Eff.Event :=
  List.filter isUpdateCall l.

Definition isOnSuccess (e : Eff.Event) : bool :=
  match e with
  | Eff.OnSuccess => true
  | _ => false
  end.

Definition onSuccessCalls (l : list Eff.Event) : nat :=
  length (List.filter isOnSuccess l).

(** Service events: one update call and console lines. *)
Definition oneUpdate (d : Supabase.UpdateData) (evs : list Eff.Event) : Prop :=
  Run.quiet evs /\
  updateCalls evs = [Eff.CallUpdateUser d] /\
  List.filter isOnSuccess evs = [].

End Tally.

(** Runs against the session calls of the client. *)
Module ClientRun.

Definition start {W : Type} (w : W) (l : list Client.Event) : Client.Env W :=
  {| Client.world := w; Client.log := l |}.

(** A [{ user, session, error }] result mirrors a provider answer: with an
    error it has neither user nor session and carries the provider's message
    (or [fallback] when there was no usable answer); without one it has the
    user and session of the provider's data. *)
Definition mirrors
  (o : Supabase.Outcome (Supabase.Response Client.AuthData.t))
  (fallback : string) (res : AuthServiceSession.SessionResult.t) : Prop :=
  (AuthServiceSession.SessionResult.error res <> None ->
   AuthServiceSession.SessionResult.user res = None /\
   AuthServiceSession.SessionResult.session res = None) /\
  (forall r e, o = Supabase.Returned r -> Supabase.error r = Some e ->
     AuthServiceSession.SessionResult.error res
     = Some (Types.errorOf (Types.message e))) /\
  (forall r d, o = Supabase.Returned r -> Supabase.error r = None ->
     Supabase.data r = Some d ->
     res = {| AuthServiceSession.SessionResult.user := Client.AuthData.user d;
              AuthServiceSession.SessionResult.session :=
                Client.AuthData.session d;
              AuthServiceSession.SessionResult.error := None |}) /\
  (Run.accepted o = false \/
   (exists r, o = Supabase.Returned r /\ Supabase.data r = None) <->
   AuthServiceSession.SessionResult.error res <> None) /\
  ((exists t, o = Supabase.Threw t) ->
   AuthServiceSession.SessionResult.error res = Some (Types.errorOf fallback)).

(** The provider has a session with a user and says so without error. *)
Definition hasSessionUser
  (o : Supabase.Outcome (Supabase.Response Client.SessionData.t)) : Prop :=
  exists r d s u,
    o = Supabase.Returned r /\ Supabase.error r = None /\
    Supabase.data r = Some d /\ Client.SessionData.session d = Some s /\
    Client.Session.user s = Some u.

(** The provider answered without error and with data. *)
Definition withData {D : Type} (o : Supabase.Outcome (Supabase.Response D))
  : bool :=
  match o with
  | Supabase.Returned r =>
      match Supabase.error r, Supabase.data r with
      | None, Some _ => true
      | _, _ => false
      end
  | Supabase.Threw _ => false
  end.

(** The provider answered without error and with a session. *)
Definition withSession
  (o : Supabase.Outcome (Supabase.Response Client.SessionData.t)) : bool :=
  match o with
  | Supabase.Returned r =>
      match Supabase.error r, Supabase.data r with
      | None, Some d => Js.isSome (Client.SessionData.session d)
      | _, _ => false
      end
  | Supabase.Threw _ => false
  end.

Definition hasSessionUserb
  (o : Supabase.Outcome (Supabase.Response Client.SessionData.t)) : bool :=
  match o with
  | Supabase.Returned r =>
      match Supabase.error r, Supabase.data r with
      | None, Some d =>
          match Client.SessionData.session d with
          | Some s => Js.isSome (Client.Session.user s)
          | None => false
          end
      | _, _ => false
      end
  | Supabase.Threw _ => false
  end.

End ClientRun.

(** Runs of the password reset service. *)
Module ResetRun.

Definition isUpdate (e : Client.Event) : bool :=
  match e with
  | Client.Auth (Eff.CallUpdateUser _) => true
  | _ => false
  end.

Definition isCleanup (e : Client.Event) : bool :=
  match e with
  | Client.CallReplaceState _ => true
  | _ => false
  end.

(** The password updates sent, and the number of URL clean-ups made. *)
Definition updates (l : list Client.Event) : list Client.Event :=
  List.filter isUpdate l.

Definition cleanups (l : list Client.Event) : nat :=
  length (List.filter isCleanup l).

(** A browser on the reset page whose provider accepts everything: the world
    is the current location, which a clean-up empties. *)
Definition ok {D : Type} (d : D) (w : PasswordResetService.Location)
  : Supabase.Outcome (Supabase.Response D) * PasswordResetService.Location :=
  (Supabase.Returned {| Supabase.data := Some d; Supabase.error := None |}, w).

Definition someUser : Types.AuthUser :=
  {| Types.id := "u-1"; Types.email := Some "ann@example.com" |}.

Definition someSession : Client.Session.t :=
  {| Client.Session.access_token := "abc";
     Client.Session.refresh_token := "def";
     Client.Session.expires_in := 3600;
     Client.Session.token_type := "bearer";
     Client.Session.user := Some someUser |}.

Definition someAuthData : Client.AuthData.t :=
  {| Client.AuthData.user := Some someUser;
     Client.AuthData.session := Some someSession |}.

Definition friendlyApi : Client.Api PasswordResetService.Location :=
  {| Client.auth :=
       {| Supabase.updateUser := fun _ =>
            ok {| Supabase.user := None |};
          Supabase.reauthenticate := ok tt;
          Supabase.resetPasswordForEmail := fun _ _ => ok tt |};
     Client.getSession := fun w =>
       (Supabase.Returned
          {| Supabase.data :=
               Some {| Client.SessionData.session := None |};
             Supabase.error := None |}, w);
     Client.signInWithPassword := fun _ _ => ok someAuthData;
     Client.signUp := fun _ _ _ => ok someAuthData;
     Client.signOut := ok tt;
     Client.setSession := fun _ _ => ok someAuthData;
     Client.signInWithOAuth := fun _ _ => ok tt |}.

Definition browser : PasswordResetService.Window PasswordResetService.Location :=
  {| PasswordResetService.location := fun w => w;
     PasswordResetService.origin := fun _ => "https://movies.example";
     PasswordResetService.pathname := fun _ => "/auth/reset-password";
     PasswordResetService.replaceState := fun _ _ =>
       (None, {| PasswordResetService.hash := EmptyString;
                 PasswordResetService.search := EmptyString |}) |}.

End ResetRun.

(** * Properties *)


(** ** String primitives *)

Lemma startsWith_app (r t : string) : Js.startsWith (r +:+ t) r = true.
Proof.
  unfold Js.startsWith. induction r as [|c r IH]; simpl.
  - now destruct t.
  - destruct (ascii_dec c c); [exact IH | congruence].
Qed.

Lemma startsWith_inv (r s : string) :
  Js.startsWith s r = true -> exists t, s = r +:+ t.
Proof.
  unfold Js.startsWith. revert s. induction r as [|c r IH]; intros s H.
  - exists s. reflexivity.
  - destruct s as [|d s]; simpl in H; [discriminate|].
    destruct (ascii_dec c d) as [->|]; [|discriminate].
    destruct (IH s H) as [t ->]. exists t. reflexivity.
Qed.

Lemma startsWith_spec (r s : string) :
  Js.startsWith s r = true <-> exists t, s = r +:+ t.
Proof.
  split; [apply startsWith_inv|]. intros [t ->]. apply startsWith_app.
Qed.

(** ** Route classification of the middleware *)

(** Split a membership in one of the literal route lists into its cases. *)
Ltac route_cases H :=
  simpl in H;
  repeat (destruct H as [H|H]; [subst|]); [..|contradiction].

Section Routes.
Import Middleware.

Lemma isProtectedRoute_spec (path : string) :
  isProtectedRoute path = true <->
  exists route rest, In route protectedRoutes /\ path = route +:+ rest.
Proof.
  unfold isProtectedRoute. rewrite existsb_exists. split.
  - intros (route & Hin & Hpre). apply startsWith_inv in Hpre as [rest ->].
    now exists route, rest.
  - intros (route & rest & Hin & ->). exists route. split; [exact Hin|].
    apply startsWith_app.
Qed.

Lemma isAuthCallbackRoute_spec (path : string) :
  isAuthCallbackRoute path = true <->
  exists route rest, In route authCallbackRoutes /\ path = route +:+ rest.
Proof.
  unfold isAuthCallbackRoute. rewrite existsb_exists. split.
  - intros (route & Hin & Hpre). apply startsWith_inv in Hpre as [rest ->].
    now exists route, rest.
  - intros (route & rest & Hin & ->). exists route. split; [exact Hin|].
    apply startsWith_app.
Qed.

Lemma isAuthRoute_spec (path : string) :
  isAuthRoute path = true <-> In path authRoutes.
Proof.
  unfold isAuthRoute. rewrite existsb_exists. split.
  - intros (route & Hin & Heq). apply String.eqb_eq in Heq. now subst.
  - intros Hin. exists path. split; [exact Hin | apply String.eqb_refl].
Qed.

Lemma protected_not_callback (path : string) :
  isProtectedRoute path = true -> isAuthCallbackRoute path = false.
Proof.
  rewrite isProtectedRoute_spec. intros (route & rest & Hin & ->).
  route_cases Hin; reflexivity.
Qed.

Lemma protected_not_auth (path : string) :
  isProtectedRoute path = true -> isAuthRoute path = false.
Proof.
  rewrite isProtectedRoute_spec. intros (route & rest & Hin & ->).
  route_cases Hin; reflexivity.
Qed.

Lemma auth_not_callback (path : string) :
  isAuthRoute path = true -> isAuthCallbackRoute path = false.
Proof.
  rewrite isAuthRoute_spec. intros Hin. route_cases Hin; reflexivity.
Qed.

Lemma auth_not_protected (path : string) :
  isAuthRoute path = true -> isProtectedRoute path = false.
Proof.
  rewrite isAuthRoute_spec. intros Hin. route_cases Hin; reflexivity.
Qed.

End Routes.

(** ** The decision table of [updateSession] *)

Section Decisions.
Import Middleware Samples.

(** The five rows of the decision table, shared by the results below. *)
Lemma decision_rows
  (request : NextRequest) (r : GetUserResponse) :
  let path := pathname (url request) in
  (isAuthCallbackRoute path = true ->
     updateSession request r = passThrough r) /\
  (isProtectedRoute path = true -> data_user r = None ->
     updateSession request r = loginRedirect request) /\
  (isProtectedRoute path = true -> data_user r <> None ->
     updateSession request r = passThrough r) /\
  (isAuthRoute path = true -> data_user r <> None ->
     updateSession request r = dashboardRedirect request) /\
  (isAuthRoute path = true -> data_user r = None ->
     updateSession request r = passThrough r).
Proof.
  intros path. unfold updateSession. fold path.
  split; [|split; [|split; [|split]]].
  - intros ->. reflexivity.
  - intros Hp Hu. rewrite (protected_not_callback _ Hp), Hp, Hu. reflexivity.
  - intros Hp Hu. rewrite (protected_not_callback _ Hp), (protected_not_auth _ Hp).
    destruct (data_user r); [reflexivity | congruence].
  - intros Ha Hu. rewrite (auth_not_callback _ Ha), Ha.
    destruct (data_user r); [reflexivity | congruence].
  - intros Ha Hu. rewrite (auth_not_callback _ Ha), (auth_not_protected _ Ha), Hu.
    reflexivity.
Qed.

(** C1. [updateSession] follows the decision table: a callback path passes
    through whatever the session; a protected path without a session is
    redirected to the login page with [redirectTo] set to the requested path;
    a protected path with a session passes through; an auth-only path with a
    session is redirected to [/dashboard]; an auth-only path without a session
    passes through. *)
Theorem updateSession_decision_table
  (request : NextRequest) (r : GetUserResponse) :
  let path := pathname (url request) in
  (isAuthCallbackRoute path = true ->
     updateSession request r = passThrough r) /\
  (isProtectedRoute path = true -> data_user r = None ->
     updateSession request r = loginRedirect request) /\
  (isProtectedRoute path = true -> data_user r <> None ->
     updateSession request r = passThrough r) /\
  (isAuthRoute path = true -> data_user r <> None ->
     updateSession request r = dashboardRedirect request) /\
  (isAuthRoute path = true -> data_user r = None ->
     updateSession request r = passThrough r).
Proof. exact (decision_rows request r). Qed.

Lemma updateSession_decision_table_witness :
  updateSession (requestFor "/auth/callback") signedIn = passThrough signedIn /\
  updateSession (requestFor "/dashboard") signedOut
    = loginRedirect (requestFor "/dashboard") /\
  updateSession (requestFor "/profile") signedIn = passThrough signedIn /\
  updateSession (requestFor "/auth/login") signedIn
    = dashboardRedirect (requestFor "/auth/login") /\
  updateSession (requestFor "/auth/register") signedOut = passThrough signedOut.
Proof.
  destruct (updateSession_decision_table (requestFor "/auth/callback") signedIn)
    as (H1 & _).
  destruct (updateSession_decision_table (requestFor "/dashboard") signedOut)
    as (_ & H2 & _).
  destruct (updateSession_decision_table (requestFor "/profile") signedIn)
    as (_ & _ & H3 & _).
  destruct (updateSession_decision_table (requestFor "/auth/login") signedIn)
    as (_ & _ & _ & H4 & _).
  destruct (updateSession_decision_table (requestFor "/auth/register") signedOut)
    as (_ & _ & _ & _ & H5).
  split; [|split; [|split; [|split]]].
  - apply H1. reflexivity.
  - apply H2; reflexivity.
  - apply H3; [reflexivity | discriminate].
  - apply H4; [reflexivity | discriminate].
  - apply H5; reflexivity.
Defined.

(** C2. When the provider call resolves to an error and no user, the
    middleware behaves exactly as for an absent session, whatever the error:
    a protected path is redirected to the login page, an auth-only path
    passes through, and nothing but these two responses can result. *)
Theorem updateSession_provider_error
  (request : NextRequest) (r : GetUserResponse) (e : AuthError) :
  error r = Some e -> data_user r = None ->
  let path := pathname (url request) in
  updateSession request r
    = updateSession request
        {| data_user := None; error := None; setAllCalls := setAllCalls r |} /\
  (isProtectedRoute path = true ->
     updateSession request r = loginRedirect request) /\
  (isAuthRoute path = true -> updateSession request r = passThrough r) /\
  (updateSession request r = passThrough r \/
   updateSession request r = loginRedirect request).
Proof.
  intros He Hu path.
  destruct (decision_rows request r) as (_ & Hp & _ & _ & Ha).
  fold path in Hp, Ha.
  split; [|split; [|split]].
  - unfold updateSession, passThrough. rewrite Hu. reflexivity.
  - intros H. now apply Hp.
  - intros H. now apply Ha.
  - unfold updateSession. fold path. rewrite Hu. simpl.
    destruct (isAuthCallbackRoute path); [now left|].
    destruct (isProtectedRoute path); [now right | now left].
Qed.

Lemma updateSession_provider_error_witness :
  updateSession (requestFor "/watchlist") providerFailure
    = loginRedirect (requestFor "/watchlist") /\
  updateSession (requestFor "/auth/login") providerFailure
    = passThrough providerFailure.
Proof.
  destruct (updateSession_provider_error (requestFor "/watchlist")
              providerFailure {| message := "fetch failed" |}
              eq_refl eq_refl) as (_ & Hp & _).
  destruct (updateSession_provider_error (requestFor "/auth/login")
              providerFailure {| message := "fetch failed" |}
              eq_refl eq_refl) as (_ & _ & Ha & _).
  split; [apply Hp | apply Ha]; reflexivity.
Defined.

End Decisions.

(** ** Prefix matching and exact matching of routes *)

Section Matching.
Import Middleware Samples.

(** C3, as stated, fails: a path that merely extends a protected route is
    guarded too, although it is none of the six listed paths. *)
Lemma protected_exact_counterexample :
  updateSession (requestFor "/dashboard/settings") signedOut
    = loginRedirect (requestFor "/dashboard/settings") /\
  ~ (isProtectedRoute "/dashboard/settings" = true <->
     In "/dashboard/settings" protectedRoutes).
Proof.
  split; [reflexivity|].
  intros [H _]. specialize (H eq_refl). simpl in H.
  repeat (destruct H as [H|H]; [discriminate|]). exact H.
Qed.

(** C3, amended. A path is classified as protected if and only if it starts
    with one of the six listed paths, and the login redirect is issued exactly
    for the protected paths requested without a session. *)
Theorem protected_iff_prefix (path : string) :
  (isProtectedRoute path = true <->
   exists route rest, In route protectedRoutes /\ path = route +:+ rest) /\
  (forall (request : NextRequest) (r : GetUserResponse),
     pathname (url request) = path ->
     (updateSession request r = loginRedirect request <->
      isProtectedRoute path = true /\ data_user r = None)).
Proof.
  split; [apply isProtectedRoute_spec|].
  intros request r <-. set (path := pathname (url request)). split.
  - unfold updateSession, passThrough, loginRedirect. fold path.
    destruct (isAuthCallbackRoute path); [discriminate|].
    destruct (data_user r) as [u|]; simpl.
    + destruct (isAuthRoute path); discriminate.
    + destruct (isProtectedRoute path); [now split | discriminate].
  - intros [Hp Hu].
    now apply (decision_rows request r).
Qed.

Lemma protected_iff_prefix_witness :
  updateSession (requestFor "/movies/rate/42") signedOut
    = loginRedirect (requestFor "/movies/rate/42").
Proof.
  apply (proj2 (protected_iff_prefix "/movies/rate/42")
           (requestFor "/movies/rate/42") signedOut eq_refl).
  split; reflexivity.
Defined.

(** C10. Auth-only routes are matched by equality: a strict extension of an
    auth-only path is not an auth route and is never redirected to the landing
    page, with or without a session (it passes through); protected routes, in
    contrast, match every extension. *)
Theorem auth_route_extension_passes
  (request : NextRequest) (r : GetUserResponse) (route rest : string) :
  In route authRoutes -> rest <> EmptyString ->
  pathname (url request) = route +:+ rest ->
  isAuthRoute (pathname (url request)) = false /\
  updateSession request r <> dashboardRedirect request /\
  updateSession request r = passThrough r /\
  (forall route', In route' protectedRoutes ->
     isProtectedRoute (route' +:+ rest) = true).
Proof.
  intros Hin Hrest Hpath.
  assert (Hcls : isAuthRoute (route +:+ rest) = false /\
                 isAuthCallbackRoute (route +:+ rest) = false /\
                 isProtectedRoute (route +:+ rest) = false).
  { destruct rest as [|c rest]; [congruence|].
    route_cases Hin; repeat split; reflexivity. }
  destruct Hcls as (Ha & Hc & Hp).
  assert (Hpass : updateSession request r = passThrough r).
  { unfold updateSession. rewrite Hpath, Ha, Hc, Hp.
    now rewrite !andb_false_r. }
  split; [now rewrite Hpath|]. split; [|split; [exact Hpass|]].
  - rewrite Hpass. discriminate.
  - intros route' Hin'. apply isProtectedRoute_spec. now exists route', rest.
Qed.

Lemma auth_route_extension_passes_witness :
  updateSession (requestFor "/auth/login/anything") signedIn
    = passThrough signedIn.
Proof.
  apply (auth_route_extension_passes (requestFor "/auth/login/anything")
           signedIn "/auth/login" "/anything").
  - simpl. auto.
  - discriminate.
  - reflexivity.
Defined.

End Matching.

(** ** The password-strength policy of the two forms *)

Section Policy.
Import PasswordPolicy.






End Policy.

(** ** Token extraction from the reset callback URL *)

Section Extraction.
Import PasswordResetService Callback.

Lemma truthy_nonempty (v : string) : v <> EmptyString -> Js.truthy v = true.
Proof. destruct v; [congruence | reflexivity]. Qed.






End Extraction.

(** ** Runs of the auth service *)

Section ServiceRuns.
Import Run.
Context {P C : Type} (supabase : Supabase.AuthClient P).

Lemma updatePassword_run (pw : string) (n : option string) (env : Eff.Env P C) :
  let d := {| Supabase.password := pw; Supabase.nonce := Js.orUndefined n |} in
  exists evs,
    snd (AuthService.updatePassword supabase pw n env)
      = {| Eff.provider := snd (Supabase.updateUser supabase d (Eff.provider env));
           Eff.component := Eff.component env;
           Eff.log := Eff.log env ++ evs |} /\
    quiet evs.
Proof.
  unfold AuthService.updatePassword, Eff.bind, Eff.emit, Eff.call, Eff.ret, quiet.
  simpl.
  destruct (Js.orUndefined n); simpl;
    destruct (Supabase.updateUser supabase _ (Eff.provider env)) as [[r|e] p'];
    simpl; try destruct (Supabase.error r); simpl;
    rewrite <- !app_assoc; simpl;
    (eexists; split; [reflexivity | repeat split; reflexivity]).
Qed.

Lemma updatePassword_result (pw : string) (n : option string)
  (env env' : Eff.Env P C) :
  Eff.provider env = Eff.provider env' ->
  fst (AuthService.updatePassword supabase pw n env)
    = fst (AuthService.updatePassword supabase pw n env').
Proof.
  intros Hp.
  unfold AuthService.updatePassword, Eff.bind, Eff.emit, Eff.call, Eff.ret.
  simpl. rewrite <- Hp.
  destruct (Js.orUndefined n); simpl;
    destruct (Supabase.updateUser supabase _ (Eff.provider env)) as [[r|e] p'];
    simpl; try destruct (Supabase.error r); reflexivity.
Qed.

Lemma updatePassword_user (pw : string) (n : option string) (env : Eff.Env P C) :
  let r := fst (AuthService.updatePassword supabase pw n env) in
  AuthService.UserResult.error r = None ->
  AuthService.UserResult.user r <> None.
Proof.
  unfold AuthService.updatePassword, Eff.bind, Eff.emit, Eff.call, Eff.ret.
  simpl.
  destruct (Js.orUndefined n); simpl;
    destruct (Supabase.updateUser supabase _ (Eff.provider env)) as [[r|e] p'];
    simpl; try destruct (Supabase.error r); simpl; discriminate.
Qed.

Lemma reauthenticate_run (env : Eff.Env P C) :
  let o := Supabase.reauthenticate supabase (Eff.provider env) in
  exists evs,
    snd (AuthService.reauthenticate supabase env)
      = {| Eff.provider := snd o;
           Eff.component := Eff.component env;
           Eff.log := Eff.log env ++ evs |} /\
    Eff.reauthCalls evs = 1 /\ toasts evs = [] /\
    Js.isSome (AuthService.ErrorResult.error
                 (fst (AuthService.reauthenticate supabase env)))
      = negb (accepted (fst o)).
Proof.
  unfold AuthService.reauthenticate, Eff.bind, Eff.emit, Eff.call, Eff.ret.
  simpl.
  destruct (Supabase.reauthenticate supabase (Eff.provider env)) as [[r|e] p'];
    simpl; try destruct (Supabase.error r); simpl;
    rewrite <- !app_assoc; simpl;
    (eexists; split; [reflexivity | repeat split; reflexivity]).
Qed.

Lemma reauthCalls_app (l evs : list Eff.Event) :
  Eff.reauthCalls (l ++ evs) = Eff.reauthCalls l + Eff.reauthCalls evs.
Proof. unfold Eff.reauthCalls. now rewrite List.filter_app, length_app. Qed.

Lemma toasts_app (l evs : list Eff.Event) :
  toasts (l ++ evs) = toasts l ++ toasts evs.
Proof. apply List.filter_app. Qed.

End ServiceRuns.

(** ** Password reset mail *)

Section ResetMail.
Import Run.

(** C4, as stated, fails: the service hands the provider's refusal on, so
    with a provider that refuses unknown addresses the result for the address
    of an account has no error while the result for an unknown address has
    one. *)
Lemma sendPasswordResetEmail_counterexample :
  AuthService.ErrorResult.error
    (fst (AuthService.sendPasswordResetEmail knownUsersClient
            "https://movies.example" "ann@example.com" (start tt tt [])))
    = None /\
  AuthService.ErrorResult.error
    (fst (AuthService.sendPasswordResetEmail knownUsersClient
            "https://movies.example" "nobody@example.com" (start tt tt [])))
    = Some (Types.errorOf "User not found").
Proof. split; reflexivity. Qed.

(** C4, amended. The result of [sendPasswordResetEmail] is free of an error
    exactly when the provider call resolves without one; when the provider
    resolves with an error the result carries that error's message, and when
    the call throws it carries the fixed text; and the result depends on the
    address only through the provider's answer: two addresses the provider
    answers alike get the same result. *)
Theorem sendPasswordResetEmail_forwards_provider
  {P C : Type} (supabase : Supabase.AuthClient P)
  (origin email : string) (env : Eff.Env P C) :
  let answerFor (a : string) (e : Eff.Env P C) :=
    fst (Supabase.resetPasswordForEmail supabase a
           (origin +:+ "/auth/reset-password") (Eff.provider e)) in
  let resultFor (a : string) (e : Eff.Env P C) :=
    fst (AuthService.sendPasswordResetEmail supabase origin a e) in
  (AuthService.ErrorResult.error (resultFor email env) = None <->
   accepted (answerFor email env) = true) /\
  (forall (email' : string) (env' : Eff.Env P C),
     answerFor email' env' = answerFor email env ->
     resultFor email' env' = resultFor email env) /\
  (forall (r : Supabase.Response unit) (e : Types.AuthError),
     answerFor email env = Supabase.Returned r ->
     Supabase.error r = Some e ->
     AuthService.ErrorResult.error (resultFor email env)
     = Some {| Types.message := Types.message e; Types.status := None |}) /\
  (forall t : Supabase.Thrown,
     answerFor email env = Supabase.Threw t ->
     AuthService.ErrorResult.error (resultFor email env)
     = Some {| Types.message := "Failed to send password reset email";
               Types.status := None |}).
Proof.
  intros answerFor resultFor. subst answerFor resultFor.
  unfold AuthService.sendPasswordResetEmail, Eff.bind, Eff.call, Eff.ret.
  simpl. split; [|split; [|split]].
  - destruct (Supabase.resetPasswordForEmail supabase email _ (Eff.provider env))
      as [[r|e] p']; simpl; [|split; discriminate].
    destruct (Supabase.error r); simpl; split;
      solve [discriminate | reflexivity].
  - intros email' env'.
    destruct (Supabase.resetPasswordForEmail supabase email' _ (Eff.provider env'))
      as [o' p''].
    destruct (Supabase.resetPasswordForEmail supabase email _ (Eff.provider env))
      as [o p']. simpl. intros ->.
    destruct o as [r|e]; [destruct (Supabase.error r)|]; reflexivity.
  - intros r e.
    destruct (Supabase.resetPasswordForEmail supabase email _ (Eff.provider env))
      as [o p']. simpl. intros -> He. rewrite He. reflexivity.
  - intros t.
    destruct (Supabase.resetPasswordForEmail supabase email _ (Eff.provider env))
      as [o p']. simpl. intros ->. reflexivity.
Qed.

Lemma sendPasswordResetEmail_forwards_provider_witness :
  fst (AuthService.sendPasswordResetEmail knownUsersClient
         "https://movies.example" "nobody@example.com" (start tt tt []))
  = fst (AuthService.sendPasswordResetEmail knownUsersClient
           "https://movies.example" "bob@example.com" (start tt tt [])) /\
  AuthService.ErrorResult.error
    (fst (AuthService.sendPasswordResetEmail knownUsersClient
            "https://movies.example" "bob@example.com" (start tt tt [])))
  = Some {| Types.message := "User not found"; Types.status := None |}.
Proof.
  destruct (sendPasswordResetEmail_forwards_provider knownUsersClient
              "https://movies.example" "bob@example.com" (start tt tt []))
    as (_ & Hsame & Hmessage & _).
  split.
  - apply (Hsame "nobody@example.com" (start tt tt [])). reflexivity.
  - apply (Hmessage
             {| Supabase.data := None;
                Supabase.error := Some (Types.errorOf "User not found") |}
             (Types.errorOf "User not found")); reflexivity.
Defined.

End ResetMail.

(** ** The reset form never sees a result without error and without user *)

Section ResetForm.
Import Run.
Context {P : Type} (supabase : Supabase.AuthClient P).

Lemma resetForm_validateForm_run (st : ResetPasswordForm.State) :
  exists errs, forall env : Eff.Env P ResetPasswordForm.State,
    ResetPasswordForm.validateForm st env
    = (Nat.eqb (size errs) 0,
       {| Eff.provider := Eff.provider env;
          Eff.component := ResetPasswordForm.withErrors errs (Eff.component env);
          Eff.log := Eff.log env |}).
Proof. eexists. intros env. reflexivity. Qed.

Lemma filter_quiet_unclear (l pre evs tl : list Eff.Event) :
  quiet evs ->
  List.filter isUnclear pre = [] -> List.filter isUnclear tl = [] ->
  List.filter isUnclear (l ++ pre ++ evs ++ tl) = List.filter isUnclear l.
Proof.
  intros (_ & _ & Hq) Hpre Htl.
  now rewrite !List.filter_app, Hq, Hpre, Htl, app_nil_r.
Qed.

Lemma handleSubmit_never_unclear (hasOnSuccess : bool)
  (st : ResetPasswordForm.State) (env : Eff.Env P ResetPasswordForm.State) :
  List.filter isUnclear
    (Eff.log (snd (ResetPasswordForm.handleSubmit supabase hasOnSuccess st env)))
  = List.filter isUnclear (Eff.log env).
Proof.
  unfold ResetPasswordForm.handleSubmit. unfold Eff.bind at 1.
  destruct (resetForm_validateForm_run st) as [errs ->].
  destruct (Nat.eqb (size errs) 0); [|reflexivity].
  cbn [negb]. unfold Eff.bind at 1 2 3.
  unfold ResetPasswordForm.setIsLoading, ResetPasswordForm.setErrors,
    Eff.setState. cbn [Eff.provider Eff.component Eff.log].
  unfold Eff.bind at 1. unfold Eff.emit at 1.
  cbn [Eff.provider Eff.component Eff.log].
  unfold Eff.bind at 1.
  match goal with
  | |- context [AuthService.updatePassword supabase ?pw ?n ?e] =>
      pose proof (updatePassword_run supabase pw n e) as Hrun;
      pose proof (updatePassword_user supabase pw n e) as Huser;
      destruct (AuthService.updatePassword supabase pw n e) as [result env3]
  end.
  cbn [fst snd Eff.provider Eff.component Eff.log] in Hrun, Huser.
  destruct Hrun as (evs & -> & Hq).
  unfold Eff.bind, Eff.emit, Eff.ret, ResetPasswordForm.setIsLoading,
    ResetPasswordForm.setErrors, ResetPasswordForm.setIsSuccess, Eff.setState.
  cbn [Eff.provider Eff.component Eff.log].
  destruct (AuthService.UserResult.error result) as [e|].
  - cbn [snd Eff.log]. rewrite <- !app_assoc.
    apply filter_quiet_unclear; [exact Hq | reflexivity | reflexivity].
  - destruct (AuthService.UserResult.user result) as [u|];
      [|now contradiction Huser].
    cbn [Js.isSome]. destruct hasOnSuccess; cbn [snd Eff.log];
      rewrite <- !app_assoc;
      (apply filter_quiet_unclear; [exact Hq | reflexivity | reflexivity]).
Qed.

(** C9. Whatever the provider does, a result of [updatePassword] without an
    error has a user (the provider's, or the stand-in value when it sent
    none), so that [handleSubmit] never takes its branch for a result with
    neither: the console line of that branch is never written. *)
Theorem updatePassword_error_or_user
  {C : Type} (newPassword : string) (nonce : option string)
  (env : Eff.Env P C) :
  let result := fst (AuthService.updatePassword supabase newPassword nonce env) in
  (AuthService.UserResult.error result = None ->
   AuthService.UserResult.user result <> None) /\
  (forall (hasOnSuccess : bool) (st : ResetPasswordForm.State)
          (p : P) (l : list Eff.Event),
     List.filter isUnclear
       (Eff.log (snd (ResetPasswordForm.handleSubmit supabase hasOnSuccess st
                        (start st p l))))
     = List.filter isUnclear l).
Proof.
  split.
  - apply updatePassword_user.
  - intros hasOnSuccess st p l.
    apply (handleSubmit_never_unclear hasOnSuccess st (start st p l)).
Qed.

End ResetForm.

Lemma updatePassword_error_or_user_witness :
  AuthService.UserResult.user
    (fst (AuthService.updatePassword Run.knownUsersClient "Abcdef1!" None
            (Run.start tt tt [])))
  = Some AuthService.UpdatedFlag /\
  Eff.log (snd (ResetPasswordForm.handleSubmit Run.knownUsersClient true
                  Run.resetFilled (Run.start Run.resetFilled tt [])))
  = [Eff.ConsoleLog "Updating password...";
     Eff.ConsoleLog "Auth service: updatePassword called with nonce:";
     Eff.ConsoleLog "Auth service: Calling supabase.auth.updateUser";
     Eff.CallUpdateUser
       {| Supabase.password := "Abcdef1!"; Supabase.nonce := None |};
     Eff.ConsoleLog "Auth service: updateUser response:";
     Eff.ConsoleLog
       "Auth service: Update successful - returning success indicator";
     Eff.ConsoleLog "Form: Received result:";
     Eff.ConsoleLog "Password updated successfully - showing success state";
     Eff.ToastSuccess "Password has been reset successfully!";
     Eff.OnSuccess].
Proof.
  pose proof (proj1 (updatePassword_error_or_user Run.knownUsersClient
                       "Abcdef1!" None (Run.start tt tt [])) eq_refl) as H.
  split; [|vm_compute; reflexivity].
  destruct (AuthService.UserResult.user _) as [[u|]|] eqn:E;
    [discriminate E | reflexivity | contradiction].
Defined.

(** ** The dashboard password flow *)

Section DashboardFlow.
Import Run DashboardPasswordReset.
Context {P : Type} (supabase : Supabase.AuthClient P).

Lemma dashboard_validateForm_run (st : State) :
  exists errs, forall env : Eff.Env P State,
    validateForm st env
    = (Nat.eqb (size errs) 0,
       {| Eff.provider := Eff.provider env;
          Eff.component := withErrors errs (Eff.component env);
          Eff.log := Eff.log env |}).
Proof. eexists. intros env. reflexivity. Qed.

(** One run of [handleSendReauth]: one dispatch, and the flags are raised
    exactly when the provider answers it without error. *)
Lemma handleSendReauth_run (env : Eff.Env P State) :
  let o := Supabase.reauthenticate supabase (Eff.provider env) in
  exists evs,
    handleSendReauth supabase env
    = (accepted (fst o),
       {| Eff.provider := snd o;
          Eff.component :=
            withIsLoading false
              ((if accepted (fst o)
                then fun s => withNeedsReauth true (withReauthSent true s)
                else fun s => s)
                 (withErrors ∅ (withIsLoading true (Eff.component env))));
          Eff.log := Eff.log env ++ evs |}) /\
    Eff.reauthCalls evs = 1 /\ length (toasts evs) = 1.
Proof.
  unfold handleSendReauth, AuthService.reauthenticate, Eff.bind, Eff.emit,
    Eff.call, Eff.ret, setIsLoading, setErrors, setReauthSent, setNeedsReauth,
    Eff.setState.
  cbn [Eff.provider Eff.component Eff.log].
  destruct (Supabase.reauthenticate supabase (Eff.provider env)) as [[r|e] p'];
    cbn [fst snd accepted AuthService.ErrorResult.error];
    [destruct (Supabase.error r) as [e|]|];
    cbn [fst snd Js.isSome negb AuthService.ErrorResult.error
         Eff.provider Eff.component Eff.log];
    rewrite <- !app_assoc;
    (eexists; split; [reflexivity | split; reflexivity]).
Qed.

(** The run of [handlePasswordUpdate] up to the answer of the service, for a
    form that validates: what validation leaves behind, and the environment
    in which the answer is examined. *)
Lemma handlePasswordUpdate_prefix (hasOnSuccess : bool) (st : State) (p : P)
  (l : list Eff.Event) :
  formValid st p = true ->
  exists errs evs,
    quiet evs /\
    fst (AuthService.updatePassword supabase (password (formData st))
           (nonceArgument st) (start st p []))
    = fst (AuthService.updatePassword supabase (password (formData st))
             (nonceArgument st)
             {| Eff.provider := p;
                Eff.component :=
                  withErrors ∅ (withIsLoading true (withErrors errs st));
                Eff.log := l ++ [Eff.ConsoleLog "Updating password..."] |}) /\
    snd (AuthService.updatePassword supabase (password (formData st))
           (nonceArgument st)
           {| Eff.provider := p;
              Eff.component :=
                withErrors ∅ (withIsLoading true (withErrors errs st));
              Eff.log := l ++ [Eff.ConsoleLog "Updating password..."] |})
    = {| Eff.provider := afterUpdate supabase st p;
         Eff.component :=
           withErrors ∅ (withIsLoading true (withErrors errs st));
         Eff.log := (l ++ [Eff.ConsoleLog "Updating password..."]) ++ evs |} /\
    validateForm st (start st p l)
    = (true, {| Eff.provider := p; Eff.component := withErrors errs st;
                Eff.log := l |}).
Proof.
  unfold formValid. destruct (dashboard_validateForm_run st) as [errs Hv].
  rewrite !Hv. cbn [fst]. intros Hvalid. exists errs.
  match goal with
  | |- context [snd (AuthService.updatePassword supabase ?pw ?n ?e)] =>
      destruct (updatePassword_run supabase pw n e) as (evs & Hrun & Hq)
  end.
  exists evs. split; [exact Hq|]. split; [|split].
  - apply updatePassword_result. reflexivity.
  - rewrite Hrun. reflexivity.
  - rewrite Hvalid. reflexivity.
Qed.

End DashboardFlow.

Section DashboardClaims.
Import Run DashboardPasswordReset.
Context {P : Type} (supabase : Supabase.AuthClient P).

(** Bring the run [HF : envF = submitted ...] of [handlePasswordUpdate] to the
    point where the service has answered with the error of [Hrej]. *)
Ltac to_rejection HF Hvalid Hrej errs evs Hq :=
  let Hres := fresh "Hres" in
  let Hsnd := fresh "Hsnd" in
  let Hv := fresh "Hv" in
  let result := fresh "result" in
  let env3 := fresh "env3" in
  match type of HF with
  | _ = submitted _ ?b ?st ?p ?l =>
      destruct (handlePasswordUpdate_prefix supabase b st p l Hvalid)
        as (errs & evs & Hq & Hres & Hsnd & Hv);
      unfold submitted, handlePasswordUpdate in HF;
      unfold Eff.bind at 1 in HF;
      rewrite Hv in HF; cbn [negb] in HF;
      unfold Eff.bind at 1 2 3 in HF;
      unfold setIsLoading at 1, setErrors at 1, Eff.setState in HF;
      cbn [Eff.provider Eff.component Eff.log] in HF;
      unfold Eff.bind at 1 in HF; unfold Eff.emit at 1 in HF;
      cbn [Eff.provider Eff.component Eff.log] in HF;
      unfold Eff.bind at 1 in HF;
      fold (nonceArgument st) in HF;
      unfold rejection in Hrej; rewrite Hres in Hrej;
      match type of HF with
      | context [AuthService.updatePassword supabase ?pw ?n ?e] =>
          destruct (AuthService.updatePassword supabase pw n e)
            as [result env3];
          cbn [fst snd] in Hrej, Hsnd; subst env3
      end;
      unfold Eff.bind at 1 in HF; unfold Eff.emit at 1 in HF;
      cbn [Eff.provider Eff.component Eff.log] in HF;
      rewrite Hrej in HF; clear Hres Hv
  end.

(** Counts over a log that grew by service events and literal events. *)
Ltac count_log Hq :=
  let Ht := fresh "Ht" in
  let Hr := fresh "Hr" in
  destruct Hq as (Ht & Hr & _);
  unfold toasts, Eff.reauthCalls in *;
  rewrite ?List.filter_app, ?Ht, ?Hr; cbn [List.filter isToast Eff.isReauthCall];
  rewrite ?app_nil_r, ?length_app; cbn [length]; rewrite ?Nat.add_0_r.

(** C6. When the provider rejects the update because the new password is the
    current one, the submission shows the one toast saying that the new
    password must be different and nothing else: no nonce is dispatched, no
    field error is set, and the reauthentication and success flags are left
    as they were. *)
Theorem same_password_rejection (hasOnSuccess : bool) (st : State) (p : P)
  (l : list Eff.Event) (e : Types.AuthError) :
  formValid st p = true ->
  rejection supabase st p = Some e ->
  isSamePasswordError (Js.toLowerCase (Types.message e)) = true ->
  let envF := submitted supabase hasOnSuccess st p l in
  toasts (Eff.log envF) = toasts l ++ [Eff.ToastError sameAsCurrentMessage] /\
  Eff.reauthCalls (Eff.log envF) = Eff.reauthCalls l /\
  Eff.component envF = withIsLoading false (withErrors ∅ st).
Proof.
  intros Hvalid Hrej Hsame envF. remember envF as envF' eqn:HF. subst envF.
  to_rejection HF Hvalid Hrej errs evs Hq.
  rewrite Hsame in HF.
  unfold Eff.bind, Eff.emit, setIsLoading, Eff.setState in HF.
  cbn [snd Eff.provider Eff.component Eff.log] in HF. subst envF'.
  cbn [Eff.provider Eff.component Eff.log].
  count_log Hq. repeat split; reflexivity.
Qed.

(** C5, amended. Take a rejection of the reauthentication class that the
    same-password test, which the handler applies first, does not catch.  Met
    without a pending nonce it dispatches exactly one nonce, and the flow is
    in the nonce state afterwards exactly when the provider answered that
    dispatch without error; met with a nonce already asked for, it dispatches
    nothing, stays in the nonce state and sets the inline nonce error. *)
Theorem reauthentication_flow (hasOnSuccess : bool) (st : State) (p : P)
  (l : list Eff.Event) (e : Types.AuthError) :
  formValid st p = true ->
  rejection supabase st p = Some e ->
  isSamePasswordError (Js.toLowerCase (Types.message e)) = false ->
  isReauthError (Js.toLowerCase (Types.message e)) = true ->
  let envF := submitted supabase hasOnSuccess st p l in
  (needsReauth st = false ->
     Eff.reauthCalls (Eff.log envF) = Eff.reauthCalls l + 1 /\
     needsReauth (Eff.component envF) = dispatchSucceeds supabase st p /\
     errors (Eff.component envF) = ∅) /\
  (needsReauth st = true ->
     Eff.reauthCalls (Eff.log envF) = Eff.reauthCalls l /\
     needsReauth (Eff.component envF) = true /\
     errors (Eff.component envF) = {[ "nonce" := invalidNonceMessage ]} /\
     toasts (Eff.log envF) = toasts l).
Proof.
  intros Hvalid Hrej Hsame Hreauth envF. remember envF as envF' eqn:HF.
  subst envF. to_rejection HF Hvalid Hrej errs evs Hq.
  rewrite Hsame, Hreauth in HF. split; intros Hneeds; rewrite Hneeds in HF.
  - cbn [negb] in HF. unfold Eff.bind at 1 2 in HF. unfold Eff.emit at 1 in HF.
    cbn [Eff.provider Eff.component Eff.log] in HF.
    match type of HF with
    | context [handleSendReauth supabase ?env] =>
        destruct (handleSendReauth_run supabase env)
          as (evs' & Hrun & Hcalls & _);
        rewrite Hrun in HF; clear Hrun
    end.
    cbn [Eff.provider Eff.component Eff.log fst snd] in HF.
    fold (dispatchSucceeds supabase st p) in HF.
    destruct (dispatchSucceeds supabase st p);
      unfold Eff.ret, setIsLoading, Eff.setState in HF;
      cbn [negb snd Eff.provider Eff.component Eff.log] in HF; subst envF';
      cbn [Eff.provider Eff.component Eff.log];
      (split; [|split; [|reflexivity]]);
      try (cbn [needsReauth withIsLoading withNeedsReauth withReauthSent
                withErrors]; congruence);
      count_log Hq; rewrite Hcalls; lia.
  - cbn [negb] in HF.
    unfold Eff.bind, setErrors, setIsLoading, Eff.setState in HF.
    cbn [snd Eff.provider Eff.component Eff.log] in HF. subst envF'.
    cbn [Eff.provider Eff.component Eff.log].
    split; [|split; [|split]].
    + count_log Hq. reflexivity.
    + exact Hneeds.
    + reflexivity.
    + count_log Hq. reflexivity.
Qed.

End DashboardClaims.

Section DashboardSamples.
Import Run DashboardPasswordReset.

Lemma same_password_rejection_witness :
  let envF := submitted samePasswordClient true (filled EmptyString false) tt [] in
  toasts (Eff.log envF) = [Eff.ToastError sameAsCurrentMessage] /\
  Eff.reauthCalls (Eff.log envF) = 0 /\
  Eff.component envF
    = withIsLoading false (withErrors ∅ (filled EmptyString false)).
Proof.
  apply (same_password_rejection samePasswordClient true
           (filled EmptyString false) tt []
           (Types.errorOf
              "New password should be different from the old password."));
    vm_compute; reflexivity.
Defined.

(** C5, as stated, fails in two ways.  When the provider refuses the nonce
    dispatch, the one dispatch is made but the flow does not enter the nonce
    state.  And a reauthentication rejection whose message the same-password
    test catches first dispatches nothing at all: the flow stays out of the
    nonce state and shows the same-password toast. *)
Lemma reauthentication_counterexample :
  let st := filled EmptyString false in
  let envF := submitted (reauthClient false) true st tt [] in
  let envG := submitted alreadySentClient true st tt [] in
  (formValid st tt = true /\
   rejection (reauthClient false) st tt
     = Some (Types.errorOf "Password update requires reauthentication") /\
   isSamePasswordError
     (Js.toLowerCase "Password update requires reauthentication") = false /\
   isReauthError
     (Js.toLowerCase "Password update requires reauthentication") = true /\
   needsReauth st = false /\
   Eff.reauthCalls (Eff.log envF) = 1 /\
   needsReauth (Eff.component envF) = false) /\
  (rejection alreadySentClient st tt
     = Some (Types.errorOf "Reauthentication nonce was already sent") /\
   isReauthError
     (Js.toLowerCase "Reauthentication nonce was already sent") = true /\
   isSamePasswordError
     (Js.toLowerCase "Reauthentication nonce was already sent") = true /\
   Eff.reauthCalls (Eff.log envG) = 0 /\
   needsReauth (Eff.component envG) = false /\
   toasts (Eff.log envG) = [Eff.ToastError sameAsCurrentMessage]).
Proof. vm_compute. repeat split; reflexivity. Qed.

Lemma reauthentication_flow_witness :
  let first := submitted (reauthClient true) true (filled EmptyString false) tt [] in
  let second := submitted (reauthClient true) true (filled "999" true) tt [] in
  (Eff.reauthCalls (Eff.log first) = 1 /\
   needsReauth (Eff.component first) = true) /\
  (Eff.reauthCalls (Eff.log second) = 0 /\
   needsReauth (Eff.component second) = true /\
   errors (Eff.component second) = {[ "nonce" := invalidNonceMessage ]}).
Proof.
  intros first second.
  assert (H1 := proj1 (reauthentication_flow (reauthClient true) true
                  (filled EmptyString false) tt []
                  (Types.errorOf "Password update requires reauthentication")
                  ltac:(vm_compute; reflexivity) ltac:(vm_compute; reflexivity)
                  ltac:(vm_compute; reflexivity) ltac:(vm_compute; reflexivity))
               eq_refl).
  assert (H2 := proj2 (reauthentication_flow (reauthClient true) true
                  (filled "999" true) tt []
                  (Types.errorOf "Nonce has expired or is invalid")
                  ltac:(vm_compute; reflexivity) ltac:(vm_compute; reflexivity)
                  ltac:(vm_compute; reflexivity) ltac:(vm_compute; reflexivity))
               eq_refl).
  destruct H1 as (Hc1 & Hn1 & _). destruct H2 as (Hc2 & Hn2 & He2 & _).
  split; [split|split; [|split]].
  - exact Hc1.
  - exact Hn1.
  - exact Hc2.
  - exact Hn2.
  - exact He2.
Defined.

End DashboardSamples.

(** * Further properties of the code *)

(** ** Middleware: the responses as a whole *)

Section MiddlewareMore.
Import Middleware Samples MoreSamples.

(** X1. A redirect issued by [updateSession] is never followed by another:
    the request for the redirect's location, made in the same session state,
    passes through. *)
Theorem updateSession_no_redirect_chain
  (request : NextRequest) (r : GetUserResponse) (u : URL)
  (cs : list Cookie) :
  updateSession request r = Redirect u ->
  updateSession (follow u cs) r = passThrough r.
Proof.
  unfold updateSession, passThrough.
  destruct (isAuthCallbackRoute (pathname (url request))); [discriminate|].
  destruct (data_user r) as [usr|] eqn:Hu; simpl.
  - destruct (isAuthRoute (pathname (url request))); [|discriminate].
    intros [= <-]. reflexivity.
  - destruct (isProtectedRoute (pathname (url request))); [|discriminate].
    intros [= <-]. reflexivity.
Qed.

Lemma updateSession_no_redirect_chain_witness :
  updateSession
    (follow {| origin := "https://movies.example"; pathname := "/auth/login";
               searchParams := [("redirectTo", "/dashboard")] |} [])
    signedOut
  = passThrough signedOut.
Proof.
  apply (updateSession_no_redirect_chain (requestFor "/dashboard") signedOut).
  reflexivity.
Defined.

(** X2. [updateSession] answers with one of three responses; it redirects to
    the landing page exactly for an auth-only path requested with a session;
    and a path that is neither protected nor auth-only passes through in
    every session state. *)
Theorem updateSession_responses (request : NextRequest) (r : GetUserResponse) :
  let path := pathname (url request) in
  (updateSession request r = passThrough r \/
   updateSession request r = loginRedirect request \/
   updateSession request r = dashboardRedirect request) /\
  (updateSession request r = dashboardRedirect request <->
   isAuthRoute path = true /\ data_user r <> None) /\
  (isProtectedRoute path = false -> isAuthRoute path = false ->
   updateSession request r = passThrough r).
Proof.
  intros path. unfold updateSession, loginRedirect, dashboardRedirect.
  fold path.
  destruct (isAuthCallbackRoute path) eqn:Hc.
  - split; [now left|]. split; [|reflexivity]. split; [discriminate|].
    intros [Ha _]. apply auth_not_callback in Ha. congruence.
  - destruct (data_user r) as [usr|]; simpl.
    + destruct (isAuthRoute path).
      * split; [now right; right|]. split; [|discriminate].
        split; [intros _; split; [reflexivity|discriminate] | reflexivity].
      * split; [now left|]. split; [|reflexivity].
        split; [discriminate | intros [Ha _]; discriminate].
    + destruct (isProtectedRoute path).
      * split; [now right; left|]. split; [|discriminate].
        split; [discriminate | intros [_ Hu]; congruence].
      * split; [now left|]. split; [|reflexivity].
        split; [discriminate | intros [_ Hu]; congruence].
Qed.

Lemma updateSession_responses_witness :
  updateSession (requestFor "/movies/42") signedIn = passThrough signedIn /\
  updateSession (requestFor "/") signedOut = passThrough signedOut.
Proof.
  split.
  - apply (updateSession_responses (requestFor "/movies/42") signedIn);
      reflexivity.
  - apply (updateSession_responses (requestFor "/") signedOut); reflexivity.
Defined.

End MiddlewareMore.

(** ** The password forms: strength meters, validation and input *)

Section FormsMore.

Lemma testClass_mono (f g : ascii -> bool) (s : string) :
  (forall c, f c = true -> g c = true) ->
  Js.testClass f s = true -> Js.testClass g s = true.
Proof.
  intros H. induction s as [|c s IH]; simpl; [discriminate|].
  intros Hs. apply orb_prop in Hs as [Hc|Hs].
  - now rewrite (H c Hc).
  - rewrite (IH Hs). apply orb_true_r.
Qed.

Lemma special_not_alphanumeric (c : ascii) :
  Js.inString DashboardPasswordReset.specialChars c = true ->
  negb (DashboardPasswordReset.isAlphanumeric c) = true.
Proof.
  unfold DashboardPasswordReset.specialChars. simpl. intros H.
  repeat (apply orb_prop in H; destruct H as [H|H];
          [apply Ascii.eqb_eq in H; subst; reflexivity|]).
  discriminate H.
Qed.

(** X3. The strength meter of the dashboard form counts at most five, and
    its label is never the empty label of the fall-through case; the label is
    Strong exactly at five. *)
Theorem dashboard_strength_label (password : string) :
  let strength := DashboardPasswordReset.getPasswordStrength password in
  let info := DashboardPasswordReset.getPasswordStrengthLabel strength in
  strength <= 5 /\
  DashboardPasswordReset.label info <> EmptyString /\
  DashboardPasswordReset.color info <> EmptyString /\
  (DashboardPasswordReset.label info = "Strong" <-> strength = 5).
Proof.
  unfold DashboardPasswordReset.getPasswordStrength.
  destruct (Nat.leb 8 (String.length password));
    destruct (Js.testClass (Js.inRange "a" "z") password);
    destruct (Js.testClass (Js.inRange "A" "Z") password);
    destruct (Js.testClass (Js.inRange "0" "9") password);
    destruct (Js.testClass _ password); simpl;
    (split; [lia|]); (split; [discriminate|]); (split; [discriminate|]);
    split; intros H; (reflexivity || discriminate H).
Qed.

(** X4. A password that [validatePassword] accepts scores five on the meter
    of either form, and on the reset form the converse holds up to the upper
    length bound: a password is accepted exactly when it scores five and is
    at most 128 long. *)
Theorem accepted_password_is_strong (password : string) :
  (DashboardPasswordReset.validatePassword password = EmptyString ->
   DashboardPasswordReset.getPasswordStrength password = 5) /\
  (ResetPasswordForm.validatePassword password = EmptyString <->
   ResetPasswordForm.getPasswordStrength password = 5 /\
   String.length password <= 128).
Proof.
  unfold DashboardPasswordReset.validatePassword,
    ResetPasswordForm.validatePassword,
    DashboardPasswordReset.getPasswordStrength,
    ResetPasswordForm.getPasswordStrength.
  pose proof (testClass_mono _ _ password special_not_alphanumeric) as Hsp.
  change ResetPasswordForm.specialChars
    with DashboardPasswordReset.specialChars.
  destruct password as [|c rest]; [simpl; split; [discriminate|];
    split; [discriminate | intros [H _]; discriminate H]|].
  cbn [Js.truthy negb].
  set (pw := String c rest) in *. set (n := String.length pw).
  destruct (Nat.ltb_spec n 8) as [Hlt|Hge].
  { replace (Nat.leb 8 n) with false by (symmetry; apply Nat.leb_gt; lia).
    split; [discriminate|]. split; [discriminate|]. intros [H _].
    destruct (Js.testClass (Js.inRange "a" "z") pw);
      destruct (Js.testClass (Js.inRange "A" "Z") pw);
      destruct (Js.testClass (Js.inRange "0" "9") pw);
      destruct (Js.testClass _ pw); discriminate H. }
  replace (Nat.leb 8 n) with true by (symmetry; apply Nat.leb_le; lia).
  destruct (Nat.ltb_spec 128 n) as [Hgt|Hle].
  { split; [discriminate|]. split; [discriminate | intros [_ H]; lia]. }
  destruct (Js.testClass (Js.inRange "a" "z") pw);
    destruct (Js.testClass (Js.inRange "A" "Z") pw);
    destruct (Js.testClass (Js.inRange "0" "9") pw);
    destruct (Js.testClass (Js.inString _) pw);
    try rewrite (Hsp eq_refl); simpl;
    (split; [first [discriminate | reflexivity]|]);
    (split; [first [discriminate | intros _; split; [reflexivity | exact Hle]]
            | intros [H _]; first [reflexivity | discriminate H]]).
Qed.

Lemma accepted_password_is_strong_witness :
  DashboardPasswordReset.getPasswordStrength "Abcdef1!" = 5.
Proof.
  apply (accepted_password_is_strong "Abcdef1!"). reflexivity.
Defined.

(** X5. The meter of the reset form never shows more than the meter of the
    dashboard form: they count the same four rules, and every character the
    reset form takes for a symbol is one for the dashboard form. *)
Theorem reset_strength_le_dashboard (password : string) :
  ResetPasswordForm.getPasswordStrength password
  <= DashboardPasswordReset.getPasswordStrength password.
Proof.
  unfold DashboardPasswordReset.getPasswordStrength,
    ResetPasswordForm.getPasswordStrength.
  pose proof (testClass_mono _ _ password special_not_alphanumeric) as Hsp.
  change ResetPasswordForm.specialChars
    with DashboardPasswordReset.specialChars.
  destruct (Nat.leb 8 (String.length password));
    destruct (Js.testClass (Js.inRange "a" "z") password);
    destruct (Js.testClass (Js.inRange "A" "Z") password);
    destruct (Js.testClass (Js.inRange "0" "9") password);
    destruct (Js.testClass (Js.inString _) password);
    try rewrite (Hsp eq_refl);
    destruct (Js.testClass _ password); lia.
Qed.

End FormsMore.

(** ** The dashboard form: validation and input *)

Section DashboardValidation.
Import Run DashboardPasswordReset.
Context {P : Type}.

Lemma truthy_false_iff (s : string) :
  Js.truthy s = false <-> s = EmptyString.
Proof. destruct s; simpl; split; congruence. Qed.

Lemma validateConfirmPassword_spec (pw confirm : string) :
  validateConfirmPassword pw confirm = EmptyString <->
  confirm <> EmptyString /\ pw = confirm.
Proof.
  unfold validateConfirmPassword. destruct confirm as [|c rest]; simpl.
  - split; [discriminate | intros [H _]; congruence].
  - destruct (String.eqb_spec pw (String c rest)) as [->|Hne]; simpl.
    + split; [intros _; split; [discriminate | reflexivity] | reflexivity].
    + split; [discriminate | intros [_ H]; congruence].
Qed.

Lemma validateForm_bool (st : State) (env : Eff.Env P State) :
  fst (validateForm st env)
  = negb (Js.truthy (validatePassword (password (formData st)))) &&
    negb (Js.truthy (validateConfirmPassword (password (formData st))
                       (confirmPassword (formData st)))) &&
    negb (needsReauth st && negb (Js.truthy (nonce (formData st)))).
Proof.
  unfold validateForm, Eff.bind, Eff.ret, setErrors, Eff.setState.
  cbn [fst snd].
  destruct (Js.truthy (validatePassword _));
    destruct (Js.truthy (validateConfirmPassword _ _));
    destruct (needsReauth st && negb (Js.truthy (nonce (formData st))));
    cbn [andb negb];
    first [ reflexivity
          | apply Nat.eqb_neq; intros Hsz;
            apply map_size_empty_iff in Hsz;
            now apply insert_non_empty in Hsz ].
Qed.

(** X6. [validateForm] lets a submission through exactly when the password
    meets the policy, the confirmation repeats it and, in the nonce state, a
    code was typed; it leaves provider and log alone, and the errors it sets
    name exactly the fields that failed, each with the message of its first
    unmet rule. *)
Theorem dashboard_validateForm_spec (st : State) (env : Eff.Env P State) :
  let pw := password (formData st) in
  let confirm := confirmPassword (formData st) in
  let env' := snd (validateForm st env) in
  let errs := errors (Eff.component env') in
  (fst (validateForm st env) = true <->
   validatePassword pw = EmptyString /\ confirm = pw /\
   (needsReauth st = true -> nonce (formData st) <> EmptyString)) /\
  errs !! "password" = Js.orUndefined (Some (validatePassword pw)) /\
  errs !! "confirmPassword"
    = Js.orUndefined (Some (validateConfirmPassword pw confirm)) /\
  errs !! "nonce"
    = (if needsReauth st && negb (Js.truthy (nonce (formData st)))
       then Some "Verification code is required" else None) /\
  Eff.component env' = withErrors errs (Eff.component env) /\
  Eff.provider env' = Eff.provider env /\ Eff.log env' = Eff.log env.
Proof.
  intros pw confirm env' errs. split.
  - rewrite validateForm_bool. fold pw confirm.
    rewrite !andb_true_iff, !negb_true_iff, !truthy_false_iff.
    rewrite validateConfirmPassword_spec.
    rewrite andb_false_iff, negb_false_iff.
    split.
    + intros [[Hv [Hne He]] Hn]. split; [exact Hv|]. split; [now symmetry|].
      intros Ht E. destruct Hn as [Hn|Hn]; [congruence|].
      apply truthy_false_iff in E. congruence.
    + intros (Hv & He & Hn). split; [split; [exact Hv|split; [|now symmetry]]|].
      * intros E. rewrite E in He. rewrite <- He in Hv. discriminate Hv.
      * destruct (needsReauth st); [right|now left].
        destruct (nonce (formData st)); [now contradiction (Hn eq_refl)|reflexivity].
  - subst env' errs.
    unfold validateForm, Eff.bind, Eff.ret, setErrors, Eff.setState.
    cbn [fst snd Eff.component Eff.provider Eff.log errors withErrors
         Js.orUndefined].
    fold pw confirm.
    destruct (Js.truthy (validatePassword pw));
      destruct (Js.truthy (validateConfirmPassword pw confirm));
      destruct (needsReauth st && negb (Js.truthy (nonce (formData st))));
      (split; [|split; [|split; [|split; [|split]]]]);
      first [reflexivity | simplify_map_eq; reflexivity].
Qed.

End DashboardValidation.

Section DashboardInput.
Import Run DashboardPasswordReset.
Context {P : Type} (supabase : Supabase.AuthClient P).

(** X7. Typing into a field stores the value in that field and in no other,
    leaves no message showing for that field, keeps the messages of the other
    fields, and touches neither the flags of the flow nor the provider. *)
Theorem dashboard_handleInputChange_spec (st : State) (field : Field)
  (value : string) (p : P) (l : list Eff.Event) :
  let env' := snd (handleInputChange st field value (start st p l)) in
  let st' := Eff.component env' in
  getField field (formData st') = value /\
  (forall other, other <> field ->
     getField other (formData st') = getField other (formData st)) /\
  Js.orUndefined (errors st' !! fieldName field) = None /\
  (forall key, key <> fieldName field -> errors st' !! key = errors st !! key) /\
  (needsReauth st', reauthSent st', isSuccess st', isLoading st')
    = (needsReauth st, reauthSent st, isSuccess st, isLoading st) /\
  Eff.provider env' = p /\ Eff.log env' = l.
Proof.
  intros env' st'. subst st' env'.
  unfold handleInputChange, Eff.bind, Eff.ret, Eff.setState, start.
  cbn [fst snd Eff.component Eff.provider Eff.log].
  destruct (Js.orUndefined (errors st !! fieldName field)) as [m|] eqn:Herr;
    cbn [Js.isSome snd Eff.component Eff.provider Eff.log errors formData
         withErrors withFormData needsReauth reauthSent isSuccess isLoading].
  - split; [now destruct field|]. split.
    { intros other Hne. destruct field, other; try reflexivity; congruence. }
    split; [now rewrite lookup_insert_eq|]. split.
    { intros key Hne. now rewrite lookup_insert_ne. }
    repeat split; reflexivity.
  - split; [now destruct field|]. split.
    { intros other Hne. destruct field, other; try reflexivity; congruence. }
    split; [exact Herr|]. repeat split; reflexivity.
Qed.

(** X8. A submission that fails validation goes nowhere: no provider call is
    made, nothing is logged or shown, the provider is left as it was, and the
    only change to the component is the errors that validation set. *)
Theorem dashboard_invalid_form_stays_local (hasOnSuccess : bool) (st : State)
  (p : P) (l : list Eff.Event) :
  formValid st p = false ->
  let env' := submitted supabase hasOnSuccess st p l in
  Eff.log env' = l /\ Eff.provider env' = p /\
  Eff.component env' = withErrors (errors (Eff.component env')) st /\
  errors (Eff.component env') <> ∅.
Proof.
  unfold formValid. destruct (dashboard_validateForm_run (P:=P) st) as [errs Hv].
  rewrite Hv. cbn [fst]. intros Hinvalid.
  assert (Hrun : submitted supabase hasOnSuccess st p l
                 = {| Eff.provider := p; Eff.component := withErrors errs st;
                      Eff.log := l |}).
  { unfold submitted, handlePasswordUpdate. unfold Eff.bind at 1.
    rewrite Hv, Hinvalid. reflexivity. }
  rewrite Hrun. cbn [Eff.log Eff.provider Eff.component errors withErrors].
  repeat split. intros ->. discriminate Hinvalid.
Qed.

End DashboardInput.

Lemma dashboard_validateForm_spec_witness :
  fst (DashboardPasswordReset.validateForm (Run.filled EmptyString false)
         (Run.start (Run.filled EmptyString false) tt [])) = true.
Proof.
  apply (dashboard_validateForm_spec (P:=unit) (Run.filled EmptyString false)
           (Run.start (Run.filled EmptyString false) tt [])).
  split; [reflexivity | split; [reflexivity | discriminate]].
Defined.

Lemma dashboard_handleInputChange_spec_witness :
  DashboardPasswordReset.getField DashboardPasswordReset.ConfirmPasswordField
    (DashboardPasswordReset.formData (Eff.component
       (snd (DashboardPasswordReset.handleInputChange (P:=unit) (Run.filled EmptyString false)
               DashboardPasswordReset.PasswordField "Zyxwvu9?"
               (Run.start (Run.filled EmptyString false) tt [])))))
  = "Abcdef1!".
Proof.
  apply (proj1 (proj2 (dashboard_handleInputChange_spec (P:=unit)
                         (Run.filled EmptyString false)
                         DashboardPasswordReset.PasswordField "Zyxwvu9?"
                         tt []))).
  discriminate.
Defined.


Lemma dashboard_invalid_form_stays_local_witness :
  Eff.log (Run.submitted Run.samePasswordClient true
             (DashboardPasswordReset.withFormData
                {| DashboardPasswordReset.password := "weak";
                   DashboardPasswordReset.confirmPassword := "weak";
                   DashboardPasswordReset.nonce := EmptyString |}
                (Run.filled EmptyString false)) tt [])
  = [].
Proof.
  apply (dashboard_invalid_form_stays_local Run.samePasswordClient true).
  vm_compute. reflexivity.
Defined.

(** ** The dashboard form: every way a submission can end *)

(** Tallies over a log that grew by the service events and literal events. *)
Ltac tally Hq :=
  let Hqq := fresh "Hqq" in
  let Ht := fresh "Ht" in
  let Hr := fresh "Hr" in
  let Hu := fresh "Hu" in
  let Ho := fresh "Ho" in
  destruct Hq as (Hqq & Hu & Ho); destruct Hqq as (Ht & Hr & _);
  unfold Run.toasts, Eff.reauthCalls, Tally.updateCalls,
    Tally.onSuccessCalls in *;
  rewrite ?List.filter_app, ?Ht, ?Hr, ?Hu, ?Ho;
  cbn [List.filter Run.isToast Eff.isReauthCall Tally.isUpdateCall
       Tally.isOnSuccess];
  rewrite ?app_nil_r, ?length_app; cbn [length app];
  rewrite ?Nat.add_0_r.

Section DashboardOutcomes.
Import Run Tally DashboardPasswordReset.
Context {P : Type} (supabase : Supabase.AuthClient P).

Lemma updatePassword_one_update {C : Type} (pw : string) (n : option string)
  (env : Eff.Env P C) :
  let d := {| Supabase.password := pw; Supabase.nonce := Js.orUndefined n |} in
  exists evs,
    snd (AuthService.updatePassword supabase pw n env)
      = {| Eff.provider := snd (Supabase.updateUser supabase d (Eff.provider env));
           Eff.component := Eff.component env;
           Eff.log := Eff.log env ++ evs |} /\
    oneUpdate d evs.
Proof.
  unfold AuthService.updatePassword, Eff.bind, Eff.emit, Eff.call, Eff.ret,
    oneUpdate, quiet.
  simpl.
  destruct (Js.orUndefined n); simpl;
    destruct (Supabase.updateUser supabase _ (Eff.provider env)) as [[r|e] p'];
    simpl; try destruct (Supabase.error r); simpl;
    rewrite <- !app_assoc; simpl;
    (eexists; split; [reflexivity | repeat split; reflexivity]).
Qed.

(** The run of a valid submission up to the answer of the service. *)
Lemma submission_prefix (st : State) (p : P) (l : list Eff.Event) :
  formValid st p = true ->
  exists errs evs,
    oneUpdate (updateData st) evs /\
    fst (AuthService.updatePassword supabase (password (formData st))
           (nonceArgument st) (start st p []))
    = fst (AuthService.updatePassword supabase (password (formData st))
             (nonceArgument st)
             {| Eff.provider := p;
                Eff.component :=
                  withErrors ∅ (withIsLoading true (withErrors errs st));
                Eff.log := l ++ [Eff.ConsoleLog "Updating password..."] |}) /\
    snd (AuthService.updatePassword supabase (password (formData st))
           (nonceArgument st)
           {| Eff.provider := p;
              Eff.component :=
                withErrors ∅ (withIsLoading true (withErrors errs st));
              Eff.log := l ++ [Eff.ConsoleLog "Updating password..."] |})
    = {| Eff.provider := afterUpdate supabase st p;
         Eff.component :=
           withErrors ∅ (withIsLoading true (withErrors errs st));
         Eff.log := (l ++ [Eff.ConsoleLog "Updating password..."]) ++ evs |} /\
    validateForm st (start st p l)
    = (true, {| Eff.provider := p; Eff.component := withErrors errs st;
                Eff.log := l |}).
Proof.
  unfold formValid. destruct (dashboard_validateForm_run (P:=P) st) as [errs Hv].
  rewrite !Hv. cbn [fst]. intros Hvalid. exists errs.
  match goal with
  | |- context [snd (AuthService.updatePassword supabase ?pw ?n ?e)] =>
      destruct (updatePassword_one_update pw n e) as (evs & Hrun & Hq)
  end.
  exists evs. split; [exact Hq|]. split; [|split].
  - apply updatePassword_result. reflexivity.
  - rewrite Hrun. reflexivity.
  - rewrite Hvalid. reflexivity.
Qed.

(** Bring the run [HF : envF = submitted ...] to the point where the service
    has answered as [Hrej] says. *)
Ltac to_answer HF Hvalid Hrej errs evs Hq :=
  let Hres := fresh "Hres" in
  let Hsnd := fresh "Hsnd" in
  let Hv := fresh "Hv" in
  let result := fresh "result" in
  let env3 := fresh "env3" in
  match type of HF with
  | _ = submitted _ ?b ?st ?p ?l =>
      destruct (submission_prefix st p l Hvalid)
        as (errs & evs & Hq & Hres & Hsnd & Hv);
      unfold submitted, handlePasswordUpdate in HF;
      unfold Eff.bind at 1 in HF;
      rewrite Hv in HF; cbn [negb] in HF;
      unfold Eff.bind at 1 2 3 in HF;
      unfold setIsLoading at 1, setErrors at 1, Eff.setState in HF;
      cbn [Eff.provider Eff.component Eff.log] in HF;
      unfold Eff.bind at 1 in HF; unfold Eff.emit at 1 in HF;
      cbn [Eff.provider Eff.component Eff.log] in HF;
      unfold Eff.bind at 1 in HF;
      fold (nonceArgument st) in HF;
      unfold rejection in Hrej; rewrite Hres in Hrej;
      match type of HF with
      | context [AuthService.updatePassword supabase ?pw ?n ?e] =>
          destruct (AuthService.updatePassword supabase pw n e)
            as [result env3];
          cbn [fst snd] in Hrej, Hsnd; subst env3
      end;
      unfold Eff.bind at 1 in HF; unfold Eff.emit at 1 in HF;
      cbn [Eff.provider Eff.component Eff.log] in HF;
      rewrite Hrej in HF; clear Hres Hv
  end.

Lemma valid_nonce_sent (st : State) (p : P) :
  formValid st p = true ->
  Supabase.nonce (updateData st)
  = if needsReauth st then Some (nonce (formData st)) else None.
Proof.
  unfold formValid. rewrite validateForm_bool.
  unfold updateData, nonceArgument. cbn [Supabase.nonce].
  destruct (needsReauth st); [|reflexivity].
  destruct (nonce (formData st)); cbn [Js.orUndefined Js.truthy andb negb];
    [rewrite andb_false_r; discriminate | reflexivity].
Qed.

(** X9. When the provider accepts the update of a valid form, the form shows
    success: one success toast, [isSuccess] raised, [onSuccess] called once if
    it was given, no nonce dispatched; and the one update sent carries the
    typed code exactly when the flow is in the nonce state. *)
Theorem dashboard_accepted_update (hasOnSuccess : bool) (st : State) (p : P)
  (l : list Eff.Event) :
  formValid st p = true ->
  rejection supabase st p = None ->
  let envF := submitted supabase hasOnSuccess st p l in
  Eff.component envF
    = withIsLoading false (withIsSuccess true (withErrors ∅ st)) /\
  toasts (Eff.log envF)
    = toasts l ++
      [Eff.ToastSuccess "Your password has been updated successfully!"] /\
  updateCalls (Eff.log envF)
    = updateCalls l ++ [Eff.CallUpdateUser (updateData st)] /\
  Supabase.nonce (updateData st)
    = (if needsReauth st then Some (nonce (formData st)) else None) /\
  Eff.reauthCalls (Eff.log envF) = Eff.reauthCalls l /\
  onSuccessCalls (Eff.log envF)
    = onSuccessCalls l + (if hasOnSuccess then 1 else 0).
Proof.
  intros Hvalid Hrej envF. remember envF as envF' eqn:HF. subst envF.
  pose proof (valid_nonce_sent st p Hvalid) as Hnonce.
  to_answer HF Hvalid Hrej errs evs Hq.
  unfold Eff.bind, Eff.emit, Eff.ret, setIsLoading, setIsSuccess,
    Eff.setState in HF.
  destruct hasOnSuccess;
    cbn [snd Eff.provider Eff.component Eff.log] in HF; subst envF';
    cbn [Eff.provider Eff.component Eff.log];
    tally Hq; repeat split; first [reflexivity | exact Hnonce | lia].
Qed.

(** X10. A rejection that is neither the same-password one nor a
    reauthentication one ends in one error toast and nothing else: the
    time-out text when the message mentions a timeout, the provider's own
    message otherwise; no nonce is dispatched and the flags stay put. *)
Theorem dashboard_other_rejection (hasOnSuccess : bool) (st : State) (p : P)
  (l : list Eff.Event) (e : Types.AuthError) :
  formValid st p = true ->
  rejection supabase st p = Some e ->
  isSamePasswordError (Js.toLowerCase (Types.message e)) = false ->
  isReauthError (Js.toLowerCase (Types.message e)) = false ->
  let envF := submitted supabase hasOnSuccess st p l in
  toasts (Eff.log envF)
    = toasts l ++
      [Eff.ToastError
         (if Js.includes (Js.toLowerCase (Types.message e)) "timeout"
          then "Password update timed out. Please try again."
          else Types.message e)] /\
  Eff.reauthCalls (Eff.log envF) = Eff.reauthCalls l /\
  updateCalls (Eff.log envF)
    = updateCalls l ++ [Eff.CallUpdateUser (updateData st)] /\
  Eff.component envF = withIsLoading false (withErrors ∅ st).
Proof.
  intros Hvalid Hrej Hsame Hreauth envF. remember envF as envF' eqn:HF.
  subst envF. to_answer HF Hvalid Hrej errs evs Hq.
  rewrite Hsame, Hreauth in HF.
  unfold Eff.bind, Eff.emit, Eff.ret, setIsLoading, Eff.setState in HF.
  destruct (Js.includes (Js.toLowerCase (Types.message e)) "timeout");
    cbn [snd Eff.provider Eff.component Eff.log] in HF; subst envF';
    cbn [Eff.provider Eff.component Eff.log];
    tally Hq; repeat split; reflexivity.
Qed.


(** One run of [handleSendReauth], with the tallies of its events. *)
Lemma handleSendReauth_tally (env : Eff.Env P State) :
  let o := Supabase.reauthenticate supabase (Eff.provider env) in
  exists evs,
    handleSendReauth supabase env
    = (accepted (fst o),
       {| Eff.provider := snd o;
          Eff.component :=
            withIsLoading false
              ((if accepted (fst o)
                then fun s => withNeedsReauth true (withReauthSent true s)
                else fun s => s)
                 (withErrors ∅ (withIsLoading true (Eff.component env))));
          Eff.log := Eff.log env ++ evs |}) /\
    length (List.filter Eff.isReauthCall evs) = 1 /\
    length (List.filter isToast evs) = 1 /\
    List.filter isUpdateCall evs = [] /\
    List.filter isOnSuccess evs = [].
Proof.
  unfold handleSendReauth, AuthService.reauthenticate, Eff.bind, Eff.emit,
    Eff.call, Eff.ret, setIsLoading, setErrors, setReauthSent, setNeedsReauth,
    Eff.setState.
  cbn [Eff.provider Eff.component Eff.log].
  destruct (Supabase.reauthenticate supabase (Eff.provider env)) as [[r|e] p'];
    cbn [fst snd accepted AuthService.ErrorResult.error];
    [destruct (Supabase.error r) as [e|]|];
    cbn [fst snd Js.isSome negb AuthService.ErrorResult.error
         Eff.provider Eff.component Eff.log];
    rewrite <- !app_assoc;
    (eexists; split; [reflexivity | repeat split; reflexivity]).
Qed.

(** Close a goal about the final environment [HF : envF = ...]. *)
Ltac settle HF Hq :=
  unfold Eff.bind, Eff.emit, Eff.ret, setIsLoading, setIsSuccess, setErrors,
    Eff.setState in HF;
  cbn [negb snd Eff.provider Eff.component Eff.log] in HF;
  match type of HF with ?x = _ => subst x end;
  cbn [Eff.provider Eff.component Eff.log isLoading isSuccess needsReauth
       formData withIsLoading withIsSuccess withErrors withNeedsReauth
       withReauthSent Js.isSome negb];
  tally Hq; rewrite ?orb_false_r, ?orb_true_r;
  repeat split; first [reflexivity | lia | congruence].

(** X11. Whatever the provider answers to a valid submission, the handler
    sends exactly one update, dispatches at most one nonce, shows at most one
    toast, ends with [isLoading] lowered and the typed values kept, never
    leaves the nonce state, and raises [isSuccess] exactly when the update
    was not rejected. *)
Theorem dashboard_submission_invariants (hasOnSuccess : bool) (st : State)
  (p : P) (l : list Eff.Event) :
  formValid st p = true ->
  let envF := submitted supabase hasOnSuccess st p l in
  isLoading (Eff.component envF) = false /\
  updateCalls (Eff.log envF)
    = updateCalls l ++ [Eff.CallUpdateUser (updateData st)] /\
  Eff.reauthCalls (Eff.log envF) <= Eff.reauthCalls l + 1 /\
  length (toasts (Eff.log envF)) <= length (toasts l) + 1 /\
  formData (Eff.component envF) = formData st /\
  (needsReauth st = true -> needsReauth (Eff.component envF) = true) /\
  isSuccess (Eff.component envF)
    = isSuccess st || negb (Js.isSome (rejection supabase st p)).
Proof.
  intros Hvalid envF. remember envF as envF' eqn:HF. subst envF.
  destruct (rejection supabase st p) as [e|] eqn:Hrej.
  - to_answer HF Hvalid Hrej errs evs Hq.
    destruct (isSamePasswordError (Js.toLowerCase (Types.message e)));
      [|destruct (isReauthError (Js.toLowerCase (Types.message e)));
        [destruct (needsReauth st) eqn:Hneeds
        |destruct (Js.includes (Js.toLowerCase (Types.message e)) "timeout")]].
    3:{ cbn [negb] in HF. unfold Eff.bind at 1 2 in HF.
        unfold Eff.emit at 1 in HF.
        cbn [Eff.provider Eff.component Eff.log] in HF.
        match type of HF with
        | context [handleSendReauth supabase ?env] =>
            destruct (handleSendReauth_tally env)
              as (evs' & Hrun & Hcalls & Htoasts & Hups & Hons);
            rewrite Hrun in HF; clear Hrun
        end.
        cbn [Eff.provider Eff.component Eff.log fst snd] in HF.
        destruct (accepted _);
          unfold Eff.ret, setIsLoading, Eff.setState in HF;
          cbn [negb snd Eff.provider Eff.component Eff.log] in HF;
          subst envF';
          cbn [Eff.provider Eff.component Eff.log isLoading isSuccess
               needsReauth formData withIsLoading withIsSuccess withErrors
               withNeedsReauth withReauthSent Js.isSome negb];
          tally Hq; rewrite ?Hups, ?Hcalls, ?Htoasts, ?orb_false_r, ?app_nil_r;
          repeat split; first [reflexivity | lia | congruence]. }
    all: settle HF Hq.
  - to_answer HF Hvalid Hrej errs evs Hq.
    destruct hasOnSuccess; settle HF Hq.
Qed.

(** X12. The send-again button dispatches exactly one nonce and shows exactly
    one toast; it raises the two nonce flags when the provider answers
    without error and leaves them as they were otherwise, so it never leaves
    the nonce state; it clears the field errors, keeps the typed values and
    ends with [isLoading] lowered. *)
Theorem dashboard_resend_code (st : State) (p : P) (l : list Eff.Event) :
  let run := handleSendReauth supabase (start st p l) in
  let ok := accepted (fst (Supabase.reauthenticate supabase p)) in
  let st' := Eff.component (snd run) in
  fst run = ok /\
  Eff.reauthCalls (Eff.log (snd run)) = Eff.reauthCalls l + 1 /\
  length (toasts (Eff.log (snd run))) = length (toasts l) + 1 /\
  updateCalls (Eff.log (snd run)) = updateCalls l /\
  needsReauth st' = needsReauth st || ok /\
  reauthSent st' = reauthSent st || ok /\
  isLoading st' = false /\ errors st' = ∅ /\ formData st' = formData st /\
  Eff.provider (snd run) = snd (Supabase.reauthenticate supabase p).
Proof.
  intros run ok st'. subst st' run.
  destruct (handleSendReauth_tally (start st p l))
    as (evs & Hrun & Hcalls & Htoasts & Hups & _).
  rewrite Hrun. cbn [fst snd start Eff.provider Eff.component Eff.log].
  fold ok. unfold Eff.reauthCalls, toasts, updateCalls.
  rewrite !List.filter_app, !length_app, Hcalls, Htoasts, Hups, app_nil_r.
  destruct ok;
    cbn [needsReauth reauthSent isLoading errors formData withIsLoading
         withNeedsReauth withReauthSent withErrors];
    rewrite ?orb_true_r, ?orb_false_r; repeat split; reflexivity.
Qed.

(** X22. The nonce round trip.  After a reauthentication rejection whose
    nonce dispatch the provider answered, the form is in the nonce state with
    the typed passwords kept; typing a code into the nonce field makes the
    form valid again, and the next submission sends the same password
    together with exactly that code. *)
Theorem dashboard_nonce_round_trip (hasOnSuccess : bool) (st : State) (p : P)
  (l : list Eff.Event) (e : Types.AuthError) (code : string)
  (p' : P) (l' : list Eff.Event) :
  formValid st p = true ->
  rejection supabase st p = Some e ->
  isSamePasswordError (Js.toLowerCase (Types.message e)) = false ->
  isReauthError (Js.toLowerCase (Types.message e)) = true ->
  needsReauth st = false ->
  dispatchSucceeds supabase st p = true ->
  code <> EmptyString ->
  let asked := Eff.component (submitted supabase hasOnSuccess st p l) in
  let typed :=
    Eff.component
      (snd (handleInputChange asked NonceField code (start asked p' l'))) in
  needsReauth asked = true /\ reauthSent asked = true /\
  formValid typed p' = true /\
  updateData typed
    = {| Supabase.password := password (formData st);
         Supabase.nonce := Some code |}.
Proof.
  intros Hvalid Hrej Hsame Hreauth Hneeds Hdisp Hcode asked.
  assert (Hasked : asked
    = withIsLoading false
        (withNeedsReauth true
           (withReauthSent true (withErrors ∅ st)))).
  { subst asked. remember (submitted supabase hasOnSuccess st p l) as envF
      eqn:HF.
    to_answer HF Hvalid Hrej errs evs Hq.
    rewrite Hsame, Hreauth, Hneeds in HF.
    cbn [negb] in HF. unfold Eff.bind at 1 2 in HF.
    unfold Eff.emit at 1 in HF.
    cbn [Eff.provider Eff.component Eff.log] in HF.
    match type of HF with
    | context [handleSendReauth supabase ?env] =>
        destruct (handleSendReauth_tally env) as (evs' & Hrun & _);
        rewrite Hrun in HF; clear Hrun
    end.
    cbn [Eff.provider Eff.component Eff.log fst snd] in HF.
    fold (dispatchSucceeds supabase st p) in HF. rewrite Hdisp in HF.
    unfold Eff.ret in HF. cbn [negb snd] in HF. subst envF. reflexivity. }
  clearbody asked. subst asked. intros typed. subst typed.
  unfold formValid in *. rewrite validateForm_bool in Hvalid.
  rewrite !validateForm_bool.
  unfold handleInputChange, Eff.bind, Eff.ret, Eff.setState, start.
  cbn [fst snd Eff.component errors formData needsReauth reauthSent
       withIsLoading withNeedsReauth withReauthSent withErrors].
  rewrite lookup_empty.
  cbn [Js.orUndefined Js.isSome snd Eff.component formData needsReauth
       withFormData setField password confirmPassword nonce].
  rewrite Hneeds in Hvalid. cbn [andb negb] in Hvalid.
  rewrite andb_true_r in Hvalid.
  apply andb_prop in Hvalid as [Hpw Hconfirm].
  unfold updateData, nonceArgument.
  cbn [formData needsReauth withFormData withIsLoading withNeedsReauth
       withReauthSent withErrors setField password confirmPassword nonce].
  rewrite Hpw, Hconfirm.
  pose proof (truthy_nonempty code Hcode) as Ht.
  split; [reflexivity|]. split; [reflexivity|]. split.
  - rewrite Ht. reflexivity.
  - destruct code; [congruence | reflexivity].
Qed.

End DashboardOutcomes.

Section DashboardOutcomeSamples.
Import Run Tally MoreSamples DashboardPasswordReset.

Lemma dashboard_accepted_update_witness :
  let envF := submitted (reauthClient true) true (filled "123456" true) tt [] in
  isSuccess (Eff.component envF) = true /\
  updateCalls (Eff.log envF)
    = [Eff.CallUpdateUser {| Supabase.password := "Abcdef1!";
                             Supabase.nonce := Some "123456" |}] /\
  onSuccessCalls (Eff.log envF) = 1.
Proof.
  destruct (dashboard_accepted_update (reauthClient true) true
              (filled "123456" true) tt []
              ltac:(vm_compute; reflexivity) ltac:(vm_compute; reflexivity))
    as (Hc & _ & Hu & _ & _ & Ho).
  cbv zeta. rewrite Hc. split; [reflexivity|]. split; [exact Hu | exact Ho].
Defined.

Lemma dashboard_other_rejection_witness :
  let envF := submitted (rejectingClient "Request timeout") false
                (filled EmptyString false) tt [] in
  toasts (Eff.log envF)
    = [Eff.ToastError "Password update timed out. Please try again."] /\
  Eff.reauthCalls (Eff.log envF) = 0.
Proof.
  destruct (dashboard_other_rejection (rejectingClient "Request timeout") false
              (filled EmptyString false) tt []
              (Types.errorOf "Request timeout")
              ltac:(vm_compute; reflexivity) ltac:(vm_compute; reflexivity)
              ltac:(vm_compute; reflexivity) ltac:(vm_compute; reflexivity))
    as (Ht & Hr & _).
  split; [exact Ht | exact Hr].
Defined.

Lemma dashboard_submission_invariants_witness :
  let envF := submitted (reauthClient false) true
                (filled EmptyString false) tt [] in
  isLoading (Eff.component envF) = false /\
  formData (Eff.component envF) = formData (filled EmptyString false).
Proof.
  destruct (dashboard_submission_invariants (reauthClient false) true
              (filled EmptyString false) tt []
              ltac:(vm_compute; reflexivity))
    as (Hl & _ & _ & _ & Hf & _).
  split; [exact Hl | exact Hf].
Defined.

Lemma dashboard_nonce_round_trip_witness :
  let asked :=
    Eff.component (submitted (reauthClient true) true
                     (filled EmptyString false) tt []) in
  let typed :=
    Eff.component
      (snd (handleInputChange asked NonceField "123456" (start asked tt []))) in
  formValid typed tt = true /\
  updateData typed
    = {| Supabase.password := "Abcdef1!"; Supabase.nonce := Some "123456" |}.
Proof.
  destruct (dashboard_nonce_round_trip (reauthClient true) true
              (filled EmptyString false) tt []
              (Types.errorOf "Password update requires reauthentication")
              "123456" tt []
              ltac:(vm_compute; reflexivity) ltac:(vm_compute; reflexivity)
              ltac:(vm_compute; reflexivity) ltac:(vm_compute; reflexivity)
              eq_refl ltac:(vm_compute; reflexivity) ltac:(discriminate))
    as (_ & _ & Hv & Hd).
  split; [exact Hv | exact Hd].
Defined.

End DashboardOutcomeSamples.

(** ** The reset form: every way a submission can end *)

Section ResetOutcomes.
Import Run Tally ResetPasswordForm.
Context {P : Type} (supabase : Supabase.AuthClient P).

(** X13. A submission of the reset form that fails validation makes no call
    and logs nothing.  A valid one sends exactly one update, without a nonce,
    and ends with [isLoading] lowered in one of two ways: the provider's
    message under the submit error and in one error toast (a stock text when
    the message is empty), or [isSuccess] raised with one success toast and
    [onSuccess] called if given. *)
Theorem reset_handleSubmit_outcomes (hasOnSuccess : bool) (st : State)
  (p : P) (l : list Eff.Event) :
  let pw := password (formData st) in
  let envF := snd (handleSubmit supabase hasOnSuccess st (start st p l)) in
  let st' := Eff.component envF in
  let result :=
    fst (AuthService.updatePassword supabase pw None (start st p [])) in
  (fst (validateForm st (start st p [])) = false ->
   Eff.log envF = l /\ Eff.provider envF = p /\
   isSuccess st' = isSuccess st /\ isLoading st' = isLoading st) /\
  (fst (validateForm st (start st p [])) = true ->
   updateCalls (Eff.log envF)
     = updateCalls l ++
       [Eff.CallUpdateUser {| Supabase.password := pw;
                              Supabase.nonce := None |}] /\
   isLoading st' = false /\
   match AuthService.UserResult.error result with
   | Some e =>
       errors st' = {[ "submit" := Types.message e ]} /\
       toasts (Eff.log envF)
         = toasts l ++
           [Eff.ToastError (if Js.truthy (Types.message e)
                            then Types.message e
                            else "Failed to reset password.")] /\
       isSuccess st' = isSuccess st
   | None =>
       isSuccess st' = true /\ errors st' = ∅ /\
       toasts (Eff.log envF)
         = toasts l ++
           [Eff.ToastSuccess "Password has been reset successfully!"] /\
       onSuccessCalls (Eff.log envF)
         = onSuccessCalls l + (if hasOnSuccess then 1 else 0)
   end).
Proof.
  intros pw envF st' result. subst st'.
  remember envF as envF' eqn:HF. subst envF.
  unfold handleSubmit in HF. unfold Eff.bind at 1 in HF.
  destruct (resetForm_validateForm_run (P:=P) st) as [errs Hv].
  rewrite !Hv in *. cbn [fst].
  destruct (Nat.eqb (size errs) 0).
  2:{ split; [|discriminate]. intros _. cbn [negb snd Eff.ret] in HF.
      subst envF'. repeat split. }
  split; [discriminate|]. intros _.
  cbn [negb] in HF. unfold Eff.bind at 1 2 3 in HF.
  unfold setIsLoading at 1, setErrors at 1, Eff.setState in HF.
  cbn [Eff.provider Eff.component Eff.log start] in HF.
  unfold Eff.bind at 1 in HF. unfold Eff.emit at 1 in HF.
  cbn [Eff.provider Eff.component Eff.log] in HF.
  unfold Eff.bind at 1 in HF. fold pw in HF.
  match type of HF with
  | context [AuthService.updatePassword supabase pw None ?e] =>
      destruct (updatePassword_one_update supabase pw None e)
        as (evs & Hrun & Hq);
      pose proof (updatePassword_user supabase pw None e) as Huser;
      pose proof (updatePassword_result supabase pw None (start st p []) e
                    eq_refl) as Hres;
      destruct (AuthService.updatePassword supabase pw None e)
        as [result' env3]
  end.
  cbn [fst snd Eff.provider Eff.component Eff.log] in Hrun, Huser, Hres.
  subst env3. subst result. rewrite Hres. clear Hres.
  unfold Eff.bind at 1 in HF. unfold Eff.emit at 1 in HF.
  cbn [Eff.provider Eff.component Eff.log] in HF.
  destruct (AuthService.UserResult.error result') as [e|].
  - unfold Eff.bind, Eff.emit, Eff.ret, setIsLoading, setErrors,
      Eff.setState in HF.
    cbn [snd Eff.provider Eff.component Eff.log] in HF. subst envF'.
    cbn [Eff.provider Eff.component Eff.log isLoading isSuccess errors
         withIsLoading withErrors Js.orUndefined].
    tally Hq. repeat split; reflexivity.
  - destruct (AuthService.UserResult.user result') as [u|];
      [|now contradiction Huser].
    cbn [Js.isSome] in HF.
    unfold Eff.bind, Eff.emit, Eff.ret, setIsLoading, setErrors, setIsSuccess,
      Eff.setState in HF.
    destruct hasOnSuccess;
      cbn [snd Eff.provider Eff.component Eff.log] in HF; subst envF';
      cbn [Eff.provider Eff.component Eff.log isLoading isSuccess errors
           withIsLoading withErrors withIsSuccess Js.orUndefined];
      tally Hq; repeat split; first [reflexivity | lia].
Qed.

End ResetOutcomes.

Lemma reset_handleSubmit_outcomes_witness :
  ResetPasswordForm.errors
    (Eff.component
       (snd (ResetPasswordForm.handleSubmit
               (MoreSamples.rejectingClient "Auth session missing!") false
               Run.resetFilled (Run.start Run.resetFilled tt []))))
  = {[ "submit" := "Auth session missing!" ]}.
Proof.
  destruct (proj2 (reset_handleSubmit_outcomes
                     (MoreSamples.rejectingClient "Auth session missing!")
                     false Run.resetFilled tt [])
              ltac:(vm_compute; reflexivity)) as (_ & _ & H).
  exact (proj1 H).
Defined.

(** ** Auth service: the session operations *)

(** The five parts of [ClientRun.mirrors], once the provider's answer and the
    result are known. *)
Ltac mirror_parts :=
  unfold ClientRun.mirrors;
  cbn [AuthServiceSession.SessionResult.error
       AuthServiceSession.SessionResult.user
       AuthServiceSession.SessionResult.session
       AuthServiceSession.failed Run.accepted Js.isSome negb
       Supabase.error Supabase.data];
  split; [first [now split | intros H; now contradiction H]|];
  split; [intros r e'; first
            [ intros [= <-]; cbn [Supabase.error]; intros [= <-]; reflexivity
            | intros [= <-]; cbn [Supabase.error]; intros H; discriminate H
            | intros H; discriminate H ]|];
  split; [intros r d'; first
            [ intros [= <-]; cbn [Supabase.error Supabase.data];
              intros _ [= <-]; reflexivity
            | intros [= <-]; cbn [Supabase.error Supabase.data];
              intros H; discriminate H
            | intros [= <-]; cbn [Supabase.error Supabase.data];
              intros _ H; discriminate H
            | intros H; discriminate H ]|];
  split;
    [split;
       [first [ intros _; discriminate
              | intros [H|(r & Hr & H)];
                [discriminate H
                |injection Hr as <-; cbn [Supabase.data] in H; discriminate H] ]
       |first [ intros _; left; reflexivity
              | intros _; right; eexists; split; reflexivity
              | intros H; now contradiction H ]]
    |first [ intros _; reflexivity | intros [t H]; discriminate H ]].

Section SessionService.
Import ClientRun AuthServiceSession.
Context {W : Type} (supabase : Client.Api W).

(** X14. [signInWithPassword] and [signUp] make one provider call with the
    given credentials and mirror its answer: a result never has a user or a
    session together with an error, an error carries the provider's message
    (a stock text when the call throws), and a result without error has the
    provider's user and session. *)
Theorem sign_in_and_sign_up_mirror_provider (email password : string)
  (userData : option Client.SignUpData) (w : W) (l : list Client.Event) :
  let signedIn := signInWithPassword supabase email password (start w l) in
  let signedUp := signUp supabase email password userData (start w l) in
  mirrors (fst (Client.signInWithPassword supabase email password w))
          "Failed to sign in" (fst signedIn) /\
  Client.log (snd signedIn)
    = l ++ [Client.CallSignInWithPassword email password] /\
  mirrors (fst (Client.signUp supabase email password userData w))
          "Failed to sign up" (fst signedUp) /\
  Client.log (snd signedUp)
    = l ++ [Client.CallSignUp email password userData].
Proof.
  unfold signInWithPassword, signUp, Client.bind, Client.call, Client.ret,
    start.
  cbn [Client.world Client.log].
  destruct (Client.signInWithPassword supabase email password w)
    as [o1 w1].
  destruct (Client.signUp supabase email password userData w) as [o2 w2].
  cbn [fst snd].
  split; [|split; [|split]].
  - destruct o1 as [[[d|] [e|]]|t]; cbn [fst]; mirror_parts.
  - destruct o1 as [[[d|] [e|]]|t]; reflexivity.
  - destruct o2 as [[[d|] [e|]]|t]; cbn [fst]; mirror_parts.
  - destruct o2 as [[[d|] [e|]]|t]; reflexivity.
Qed.

Lemma hasSessionUser_dec
  (o : Supabase.Outcome (Supabase.Response Client.SessionData.t)) :
  hasSessionUser o <-> hasSessionUserb o = true.
Proof.
  unfold hasSessionUser, hasSessionUserb. split.
  - intros (r & d & s & u & -> & He & Hd & Hs & Hu).
    now rewrite He, Hd, Hs, Hu.
  - destruct o as [r|t]; [|discriminate].
    destruct (Supabase.error r) eqn:He; [discriminate|].
    destruct (Supabase.data r) as [d|] eqn:Hd; [|discriminate].
    destruct (Client.SessionData.session d) as [s|] eqn:Hs; [|discriminate].
    destruct (Client.Session.user s) as [u|] eqn:Hu; [|discriminate].
    intros _. exists r, d, s, u. repeat split; assumption.
Qed.

(** X15. [verifyPasswordResetToken] reports the token valid exactly when its
    result has no error, and exactly when the provider, asked once for the
    session, answers without error with a session that has a user. *)
Theorem verifyPasswordResetToken_valid_iff (w : W) (l : list Client.Event) :
  let run := verifyPasswordResetToken supabase (start w l) in
  (VerifyResult.valid (fst run) = true <->
   VerifyResult.error (fst run) = None) /\
  (VerifyResult.valid (fst run) = true <->
   hasSessionUser (fst (Client.getSession supabase w))) /\
  Client.log (snd run) = l ++ [Client.CallGetSession] /\
  Client.world (snd run) = snd (Client.getSession supabase w).
Proof.
  unfold verifyPasswordResetToken, Client.bind, Client.call, Client.ret, start.
  cbn [Client.world Client.log]. rewrite hasSessionUser_dec.
  unfold hasSessionUserb.
  destruct (Client.getSession supabase w) as [o w'].
  destruct o as [r|t]; cbn [fst snd].
  - destruct (Supabase.error r) as [e|].
    { cbn. repeat split; intros H; discriminate H. }
    destruct (Supabase.data r) as [d|].
    2:{ cbn. repeat split; intros H; discriminate H. }
    destruct (Client.SessionData.session d) as [s|].
    2:{ cbn. repeat split; intros H; discriminate H. }
    destruct (Client.Session.user s) as [u|]; cbn;
      repeat split; intros H; first [reflexivity | discriminate H].
  - cbn. repeat split; intros H; discriminate H.
Qed.

(** X16. The user of a [getSession] result is the user of its session: a
    result with a user has a session whose user it is, a result with an error
    has neither, and the session is the provider's. *)
Theorem getSession_user_of_session (w : W) (l : list Client.Event) :
  let res := fst (getSession supabase (start w l)) in
  (SessionResult.error res <> None ->
   SessionResult.user res = None /\ SessionResult.session res = None) /\
  (forall u, SessionResult.user res = Some u ->
     exists s, SessionResult.session res = Some s /\
               Client.Session.user s = Some u) /\
  (forall r d, fst (Client.getSession supabase w) = Supabase.Returned r ->
     Supabase.error r = None -> Supabase.data r = Some d ->
     SessionResult.session res = Client.SessionData.session d /\
     SessionResult.error res = None).
Proof.
  unfold getSession, Client.bind, Client.call, Client.ret, start, failed.
  cbn [Client.world Client.log].
  destruct (Client.getSession supabase w) as [o w'].
  destruct o as [[[[[s|]]|] [e|]]|t];
    cbn [fst snd SessionResult.user SessionResult.session SessionResult.error
         Client.SessionData.session Supabase.error Supabase.data];
    (split; [first [now split | intros H; now contradiction H]|]);
    (split;
       [ intros u Hu; first [discriminate Hu | eexists; split; [reflexivity | exact Hu]]
       | intros r d; first
           [ intros [= <-]; cbn [Supabase.error Supabase.data];
             intros _ [= <-]; split; reflexivity
           | intros [= <-]; cbn [Supabase.error Supabase.data];
             intros H; discriminate H
           | intros [= <-]; cbn [Supabase.error Supabase.data];
             intros _ H; discriminate H
           | intros H; discriminate H ] ]).
Qed.

(** X17. [signInWithGoogle] is [signInWithOAuth] for google: the same call
    with the same callback address, the same world afterwards, and the same
    result whenever the call does not throw; when it throws, the two differ
    only in the capital letter of their stock message. *)
Theorem signInWithGoogle_is_oauth_google (origin : string) (w : W)
  (l : list Client.Event) :
  let viaGoogle := signInWithGoogle supabase origin (start w l) in
  let viaOAuth := signInWithOAuth supabase origin google (start w l) in
  let answer :=
    fst (Client.signInWithOAuth supabase "google"
           (origin +:+ "/auth/callback") w) in
  snd viaGoogle = snd viaOAuth /\
  Client.log (snd viaGoogle)
    = l ++ [Client.CallSignInWithOAuth "google" (origin +:+ "/auth/callback")] /\
  ((forall t, answer <> Supabase.Threw t) -> fst viaGoogle = fst viaOAuth) /\
  (forall t, answer = Supabase.Threw t ->
     AuthService.ErrorResult.error (fst viaGoogle)
       = Some (Types.errorOf "Failed to sign in with Google") /\
     AuthService.ErrorResult.error (fst viaOAuth)
       = Some (Types.errorOf "Failed to sign in with google")).
Proof.
  unfold signInWithGoogle, signInWithOAuth, Client.bind, Client.call,
    Client.ret, start.
  cbn [Client.world Client.log providerName].
  destruct (Client.signInWithOAuth supabase "google" _ w) as [o w'].
  destruct o as [[d [e|]]|t]; cbn [fst snd Supabase.error Client.log];
    (split; [reflexivity|]); (split; [reflexivity|]);
    (split; [intros H; first [reflexivity | now contradiction (H t)]
            |intros t' Ht; first [discriminate Ht | split; reflexivity]]).
Qed.

End SessionService.

(** ** Password reset service: the asynchronous steps *)

Section ResetService.
Import ClientRun ResetRun PasswordResetService.
Context {W : Type} (supabase : Client.Api W) (window : Window W).

Lemma orUndefined_idem (a : option string) :
  Js.orUndefined (Js.orUndefined a) = Js.orUndefined a.
Proof. destruct a as [[|c s]|]; reflexivity. Qed.

Lemma extracted_tokens_truthy (loc : Location) :
  Js.orUndefined (accessToken (extractTokensFromUrl loc))
    = accessToken (extractTokensFromUrl loc) /\
  Js.orUndefined (refreshToken (extractTokensFromUrl loc))
    = refreshToken (extractTokensFromUrl loc).
Proof. split; apply orUndefined_idem. Qed.

(** One run of [verifyResetSession]: its result does not depend on the log,
    and what it logs holds neither an update nor a clean-up. *)
Lemma verifyResetSession_run (env : Client.Env W) :
  exists evs w',
    verifyResetSession supabase window env
    = (fst (verifyResetSession supabase window (start (Client.world env) [])),
       {| Client.world := w'; Client.log := Client.log env ++ evs |}) /\
    List.filter isUpdate evs = [] /\ List.filter isCleanup evs = [] /\
    (success (fst (verifyResetSession supabase window
                     (start (Client.world env) []))) = true <->
     error (fst (verifyResetSession supabase window
                   (start (Client.world env) []))) = None).
Proof.
  unfold verifyResetSession, verifyThrown, Client.bind, Client.call,
    Client.get, Client.consoleLog, Client.consoleError, Client.emit,
    Client.ret, start, failure.
  cbn [Client.world Client.log].
  destruct (Js.orUndefined (accessToken _)) as [a|];
    [destruct (Js.orUndefined (refreshToken _)) as [r|]|].
  - cbn [Client.world Client.log].
    destruct (Client.setSession supabase a r (Client.world env))
      as [[[[d|] [e|]]|t] w'];
      cbn [fst snd Client.world Client.log Supabase.error Supabase.data
           success error];
      rewrite <- !app_assoc;
      (do 2 eexists; split; [reflexivity|]; repeat split;
       intros H; first [reflexivity | discriminate H]).
  - cbn [Client.world Client.log].
    destruct (Client.getSession supabase (Client.world env))
      as [[[[[[s|]]|] [e|]]|t] w'];
      cbn [fst snd Client.world Client.log Supabase.error Supabase.data
           Client.SessionData.session success error];
      rewrite <- !app_assoc;
      (do 2 eexists; split; [reflexivity|]; repeat split;
       intros H; first [reflexivity | discriminate H]).
  - cbn [Client.world Client.log].
    destruct (Client.getSession supabase (Client.world env))
      as [[[[[[s|]]|] [e|]]|t] w'];
      cbn [fst snd Client.world Client.log Supabase.error Supabase.data
           Client.SessionData.session success error];
      rewrite <- !app_assoc;
      (do 2 eexists; split; [reflexivity|]; repeat split;
       intros H; first [reflexivity | discriminate H]).
Qed.

(** X18. [verifyResetSession] asks the provider once: with both tokens in the
    URL it sets the session from exactly those tokens and succeeds when that
    call returns data without error; otherwise it asks for the current
    session and succeeds when there is one.  A failure carries one of two
    stock messages, never the provider's own. *)
Theorem verifyResetSession_discipline (w : W) (l : list Client.Event) :
  let tokens := extractTokensFromUrl (location window w) in
  let run := verifyResetSession supabase window (start w l) in
  (forall a r, accessToken tokens = Some a -> refreshToken tokens = Some r ->
     Client.calls (Client.log (snd run))
       = Client.calls l ++ [Client.CallSetSession a r] /\
     Client.world (snd run) = snd (Client.setSession supabase a r w) /\
     success (fst run) = withData (fst (Client.setSession supabase a r w))) /\
  (accessToken tokens = None \/ refreshToken tokens = None ->
     Client.calls (Client.log (snd run))
       = Client.calls l ++ [Client.CallGetSession] /\
     Client.world (snd run) = snd (Client.getSession supabase w) /\
     success (fst run) = withSession (fst (Client.getSession supabase w))) /\
  (error (fst run) = None \/
   error (fst run) = Some "Invalid or expired reset link" \/
   error (fst run) = Some "Failed to verify reset link") /\
  (success (fst run) = true <-> error (fst run) = None).
Proof.
  intros tokens run. subst run.
  destruct (extracted_tokens_truthy (location window w)) as [Ha Hr].
  fold tokens in Ha, Hr.
  unfold verifyResetSession, verifyThrown, Client.bind, Client.call,
    Client.get, Client.consoleLog, Client.consoleError, Client.emit,
    Client.ret, start, failure, Client.calls, withData, withSession.
  cbn [Client.world Client.log]. fold tokens. rewrite Ha, Hr.
  destruct (accessToken tokens) as [a|]; [destruct (refreshToken tokens) as [r|]|].
  - cbn [Client.world Client.log].
    split; [intros a' r' [= <-] [= <-]
           |split; [intros [H|H]; discriminate H|]];
      (destruct (Client.setSession supabase a r w) as [[[[d|] [e|]]|t] w'];
       cbn [fst snd Client.world Client.log Supabase.error Supabase.data
            success error];
       rewrite <- ?app_assoc, ?List.filter_app;
       cbn [List.filter Client.isCall app];
       rewrite ?app_nil_r;
       first [ now repeat split
             | split; [auto|]; split; intros H;
               first [reflexivity | discriminate H] ]).
  - cbn [Client.world Client.log].
    split; [intros a' r' _ H; discriminate H|split; [intros _|]];
      (destruct (Client.getSession supabase w) as [[[[[[s|]]|] [e|]]|t] w'];
       cbn [fst snd Client.world Client.log Supabase.error Supabase.data
            Client.SessionData.session success error Js.isSome];
       rewrite <- ?app_assoc, ?List.filter_app;
       cbn [List.filter Client.isCall app];
       rewrite ?app_nil_r;
       first [ now repeat split
             | split; [auto|]; split; intros H;
               first [reflexivity | discriminate H] ]).
  - cbn [Client.world Client.log].
    split; [intros a' r' H; discriminate H|split; [intros _|]];
      (destruct (Client.getSession supabase w) as [[[[[[s|]]|] [e|]]|t] w'];
       cbn [fst snd Client.world Client.log Supabase.error Supabase.data
            Client.SessionData.session success error Js.isSome];
       rewrite <- ?app_assoc, ?List.filter_app;
       cbn [List.filter Client.isCall app];
       rewrite ?app_nil_r;
       first [ now repeat split
             | split; [auto|]; split; intros H;
               first [reflexivity | discriminate H] ]).
Qed.

(** X19. [sendResetEmail] of the reset service and [sendPasswordResetEmail]
    of the auth service are one request seen twice: the same call with the
    same return address, success on one side exactly when the other has no
    error, and the same message otherwise. *)
Theorem sendResetEmail_agrees_with_auth_service {C : Type} (email : string)
  (w : W) (l : list Client.Event) (c : C) (l' : list Eff.Event) :
  let run := sendResetEmail supabase window email (start w l) in
  let other :=
    AuthService.sendPasswordResetEmail (Client.auth supabase)
      (origin window w) email (Run.start c w l') in
  error (fst run)
    = option_map Types.message (AuthService.ErrorResult.error (fst other)) /\
  (success (fst run) = true <->
   AuthService.ErrorResult.error (fst other) = None) /\
  (success (fst run) = true <-> error (fst run) = None) /\
  Client.calls (Client.log (snd run))
    = Client.calls l ++
      [Client.Auth (Eff.CallResetPasswordForEmail email
                      (origin window w +:+ "/auth/reset-password"))] /\
  Eff.log (snd other)
    = l' ++ [Eff.CallResetPasswordForEmail email
               (origin window w +:+ "/auth/reset-password")] /\
  Client.world (snd run) = Eff.provider (snd other).
Proof.
  unfold sendResetEmail, AuthService.sendPasswordResetEmail, Client.bind,
    Client.call, Client.get, Client.consoleLog, Client.consoleError,
    Client.emit, Client.ret, Eff.bind, Eff.call, Eff.ret, start, Run.start,
    failure, Client.calls.
  cbn [Client.world Client.log Eff.provider Eff.log Eff.component].
  destruct (Supabase.resetPasswordForEmail (Client.auth supabase) email _ w)
    as [[[d [e|]]|t] w'];
    cbn [fst snd Client.world Client.log Eff.provider Eff.log Supabase.error
         success error AuthService.ErrorResult.error option_map
         Types.message Types.errorOf];
    rewrite <- ?app_assoc, ?List.filter_app;
    cbn [List.filter Client.isCall app]; rewrite ?app_nil_r;
    repeat split; intros H; first [reflexivity | discriminate H].
Qed.

(** X20. [updatePassword] of the reset service verifies the session first.
    When verification fails it hands that failure back and neither updates
    the password nor touches the URL.  When it succeeds, exactly one update
    is sent, without a nonce, and the URL is cleaned up exactly when the
    update went through.  A result succeeds exactly when it has no error, and
    a successful one always has a user in its data. *)
Theorem reset_updatePassword_steps (newPassword : string) (w : W)
  (l : list Client.Event) :
  let verified := fst (verifyResetSession supabase window (start w [])) in
  let run := updatePassword supabase window newPassword (start w l) in
  (success verified = false ->
   fst run = verified /\
   updates (Client.log (snd run)) = updates l /\
   cleanups (Client.log (snd run)) = cleanups l) /\
  (success verified = true ->
   updates (Client.log (snd run))
     = updates l ++
       [Client.Auth (Eff.CallUpdateUser
          {| Supabase.password := newPassword; Supabase.nonce := None |})] /\
   cleanups (Client.log (snd run))
     = cleanups l + (if success (fst run) then 1 else 0)) /\
  (success (fst run) = true <-> error (fst run) = None) /\
  (success (fst run) = true ->
   exists u, data (fst run) = Some (UserData (Some u))).
Proof.
  intros verified run. remember run as run' eqn:HF. subst run.
  unfold updatePassword in HF. unfold Client.bind at 1 2 in HF.
  unfold Client.consoleLog at 1, Client.emit at 1 in HF.
  cbn [Client.world Client.log start] in HF.
  match type of HF with
  | context [verifyResetSession supabase window ?env] =>
      destruct (verifyResetSession_run env)
        as (evs & w' & Hrun & Hu & Hc & Hiff);
      rewrite Hrun in HF; clear Hrun
  end.
  cbn [Client.world start] in Hiff, HF. fold verified in Hiff, HF.
  unfold updates, cleanups.
  unfold cleanupUrl in HF.
  unfold Client.bind, Client.consoleLog, Client.consoleError,
    Client.emit, Client.call, Client.ret, Client.get, failure in HF.
  cbn [Client.world Client.log] in HF.
  destruct (success verified) eqn:Hs;
    cbn [negb Client.world Client.log] in HF.
  - destruct (Supabase.updateUser (Client.auth supabase) _ w')
      as [[[d [e|]]|t] w''];
      cbn [fst snd Client.world Client.log Supabase.error] in HF;
      try destruct (replaceState window (pathname window w'') w'')
        as [[t'|] w3];
      cbn [fst snd Client.world Client.log] in HF; subst run';
      cbn [fst snd success error data Client.log];
      rewrite <- ?app_assoc, ?List.filter_app, ?Hu, ?Hc;
      cbn [List.filter isUpdate isCleanup app];
      rewrite ?app_nil_r, ?length_app; cbn [length];
      (split; [discriminate|]);
      (split; [intros _; split; first [reflexivity | lia]|]);
      (split; [split; intros H; first [reflexivity | discriminate H]|]);
      intros H; first [discriminate H | eexists; reflexivity].
  - cbn [fst snd Client.world Client.log] in HF. subst run'.
    cbn [fst snd Client.log].
    rewrite <- ?app_assoc, ?List.filter_app, ?Hu, ?Hc.
    cbn [List.filter isUpdate isCleanup app]. rewrite ?app_nil_r.
    split; [intros _; repeat split; reflexivity|].
    split; [discriminate|]. rewrite Hs.
    split; [exact Hiff | intros H; discriminate H].
Qed.

End ResetService.

Section ResetServiceSamples.
Import ClientRun ResetRun PasswordResetService Callback.

Lemma verifyResetSession_discipline_witness :
  Client.calls
    (Client.log (snd (verifyResetSession friendlyApi browser
                        (start fragmentLink []))))
  = [Client.CallSetSession "abc" "d/e"] /\
  Client.calls
    (Client.log (snd (verifyResetSession friendlyApi browser
                        (start {| hash := EmptyString; search := EmptyString |}
                               []))))
  = [Client.CallGetSession].
Proof.
  split.
  - apply (proj1 (verifyResetSession_discipline friendlyApi browser
                    fragmentLink []) "abc" "d/e"); reflexivity.
  - apply (proj1 (proj2 (verifyResetSession_discipline friendlyApi browser
                           {| hash := EmptyString; search := EmptyString |}
                           []))).
    left. reflexivity.
Defined.

Lemma reset_updatePassword_steps_witness :
  let done := updatePassword friendlyApi browser "Abcdef1!"
                (start queryLink []) in
  let refused := updatePassword friendlyApi browser "Abcdef1!"
                   (start {| hash := EmptyString; search := EmptyString |} []) in
  (updates (Client.log (snd done))
     = [Client.Auth (Eff.CallUpdateUser
          {| Supabase.password := "Abcdef1!"; Supabase.nonce := None |})] /\
   cleanups (Client.log (snd done)) = 1) /\
  (fst refused = failure "Invalid or expired reset link" /\
   updates (Client.log (snd refused)) = [] /\
   cleanups (Client.log (snd refused)) = 0).
Proof.
  split.
  - apply (proj1 (proj2 (reset_updatePassword_steps friendlyApi browser
                           "Abcdef1!" queryLink []))).
    reflexivity.
  - apply (proj1 (reset_updatePassword_steps friendlyApi browser "Abcdef1!"
                    {| hash := EmptyString; search := EmptyString |} [])).
    reflexivity.
Defined.

(** X21. Each token is resolved on its own, the fragment first: it is the
    fragment's value when that is not empty, else the query's value when that
    is not empty, else missing.  In particular an empty value in the fragment
    does not hide a value in the query. *)
Theorem extractTokensFromUrl_precedence (location : Location) :
  let tokens := extractTokensFromUrl location in
  let pick (name : string) :=
    match Js.orUndefined (URLSearchParams.get (hashParams location) name) with
    | Some v => Some v
    | None => Js.orUndefined (URLSearchParams.get (searchParams location) name)
    end in
  accessToken tokens = pick "access_token" /\
  refreshToken tokens = pick "refresh_token" /\
  (forall v, accessToken tokens = Some v -> v <> EmptyString) /\
  (forall v, refreshToken tokens = Some v -> v <> EmptyString).
Proof.
  unfold extractTokensFromUrl.
  fold (hashParams location) (searchParams location).
  cbn [accessToken refreshToken].
  destruct (URLSearchParams.get (hashParams location) "access_token")
    as [[|c1 s1]|];
    destruct (URLSearchParams.get (searchParams location) "access_token")
      as [[|c2 s2]|];
    destruct (URLSearchParams.get (hashParams location) "refresh_token")
      as [[|c3 s3]|];
    destruct (URLSearchParams.get (searchParams location) "refresh_token")
      as [[|c4 s4]|];
    cbn [Js.or Js.orUndefined Js.truthy];
    repeat split; intros v H; first [discriminate H | injection H as <-; discriminate].
Qed.

Lemma extractTokensFromUrl_precedence_witness :
  accessToken
    (extractTokensFromUrl
       {| hash := "#access_token=&refresh_token=fromhash";
          search := "?access_token=fromquery" |})
  = Some "fromquery".
Proof.
  apply (extractTokensFromUrl_precedence
           {| hash := "#access_token=&refresh_token=fromhash";
              search := "?access_token=fromquery" |}).
Defined.

End ResetServiceSamples.
